(** * Report-structuring core of the Competitor Analysis system

    A shallow embedding of [src/utils.py]: the section classifier
    ([format_report_for_display]), the metrics extractor
    ([extract_key_metrics]), the block sequence built by
    [PDFReportGenerator], the text export ([clean_text_for_export]) and the
    export file name ([generate_filename]); and of the two pure functions
    of the application around them, [initialize_session_state] of
    [src/app.py] and [validate_config] of [src/config.py].

    Conventions of the embedding:
    - a Python [str] is a [string]; a character is a code point below 256
      (Latin-1, which contains ASCII), so [str.lower], [str.strip], [\w] and
      [\s] are the restrictions of Python's Unicode tables to that range;
    - a Python [dict] with string keys is a [gmap string value];
    - statements that can raise run in a small state-and-exception monad
      whose store survives an exception, as an object mutated in place does;
    - the clock read by [datetime.now()] is an explicit argument;
    - ReportLab's [Paragraph] constructor parses the text it is given and
      raises on a text it cannot parse; which texts it takes is a
      parameter of the renderer, and what the renderer returns is the list
      it hands to the layout engine. *)

From Stdlib Require Import Ascii String List Bool Arith ZArith Lia.
From stdpp Require Import gmap strings.
Import ListNotations.

#[local] Arguments String.append !s1 s2 : simpl nomatch.
#[local] Arguments Ascii.eqb : simpl never.

(** ** Python strings *)

Module PyStr.

Definition ord (c : ascii) : nat := nat_of_ascii c.

Definition between (lo hi : nat) (c : ascii) : bool :=
  (lo <=? ord c) && (ord c <=? hi).

(** [str.isspace] on one character. *)
Definition isspace (c : ascii) : bool :=
  between 9 13 c || between 28 32 c || (ord c =? 133) || (ord c =? 160).

(** The characters changed by [str.lower]: A-Z and the capital letters of
    the Latin-1 supplement (U+00C0..U+00DE without the multiplication
    sign), each 32 below its lower-case form. *)
Definition isupper (c : ascii) : bool :=
  between 65 90 c || (between 192 222 c && negb (ord c =? 215)).

Definition lower_char (c : ascii) : ascii :=
  if isupper c then ascii_of_nat (ord c + 32) else c.

Fixpoint lower (s : string) : string :=
  match s with
  | EmptyString => EmptyString
  | String c s' => String (lower_char c) (lower s')
  end.

Fixpoint lstrip (s : string) : string :=
  match s with
  | EmptyString => EmptyString
  | String c s' => if isspace c then lstrip s' else s
  end.

Fixpoint rstrip (s : string) : string :=
  match s with
  | EmptyString => EmptyString
  | String c s' =>
      match rstrip s' with
      | EmptyString => if isspace c then EmptyString else String c EmptyString
      | r => String c r
      end
  end.

(** [s.strip()] *)
Definition strip (s : string) : string := lstrip (rstrip s).

(** [s.startswith(p)] *)
Fixpoint startswith (s p : string) {struct p} : bool :=
  match p with
  | EmptyString => true
  | String a p' =>
      match s with
      | EmptyString => false
      | String b s' => Ascii.eqb b a && startswith s' p'
      end
  end.

(** [s.startswith((p1, ..., pn))] *)
Definition startswith_any (s : string) (ps : list string) : bool :=
  existsb (startswith s) ps.

(** [needle in hay] *)
Fixpoint contains (needle hay : string) : bool :=
  startswith hay needle ||
  match hay with
  | EmptyString => false
  | String _ hay' => contains needle hay'
  end.

(** [s[n:]] *)
Fixpoint slice_from (n : nat) (s : string) : string :=
  match n, s with
  | O, _ => s
  | S n', String _ s' => slice_from n' s'
  | S _, EmptyString => EmptyString
  end.

(** [s[0]] of a non-empty string, as a one-character string. *)
Definition first_char (s : string) : string :=
  match s with
  | EmptyString => EmptyString
  | String c _ => String c EmptyString
  end.

Definition newline : ascii := ascii_of_nat 10.

(** [s.split(sep)] for a one-character separator: always at least one
    field, the empty string gives one empty field. *)
Fixpoint split (sep : ascii) (s : string) : list string :=
  match s with
  | EmptyString => [EmptyString]
  | String c s' =>
      if Ascii.eqb c sep then EmptyString :: split sep s'
      else match split sep s' with
           | [] => [String c EmptyString]
           | field :: fields => String c field :: fields
           end
  end.

(** [sep.join(fields)] *)
Definition join (sep : string) (fields : list string) : string :=
  String.concat sep fields.

(** Truth value of a [str]. *)
Definition nonempty (s : string) : bool :=
  match s with EmptyString => false | _ => true end.

End PyStr.

(** ** The fragment of [re] used by the source

    A pattern is a sequence of items, each consuming at least one
    character; that covers every pattern of [utils.py]. Matching is
    leftmost with backtracking, greedy or lazy per item, as in [re]. *)

Module Re.

Inductive item : Type :=
| One (cls : ascii -> bool)          (* a literal, [.] or a character set *)
| PlusGreedy (cls : ascii -> bool)   (* [x+] *)
| PlusLazy (cls : ascii -> bool)     (* [x+?] *)
| GroupOpen                          (* [(] of group 1 *)
| GroupClose.                        (* [)] of group 1 *)

Definition lit (c : ascii) : ascii -> bool := Ascii.eqb c.
(** [.] without DOTALL: anything but a newline. *)
Definition dot (c : ascii) : bool := negb (Ascii.eqb c PyStr.newline).
(** [\s] *)
Definition space : ascii -> bool := PyStr.isspace.
(** [\w]: the alphanumeric characters and the underscore. *)
Definition isalnum (c : ascii) : bool :=
  PyStr.between 48 57 c || PyStr.between 65 90 c || PyStr.between 97 122 c ||
  (PyStr.ord c =? 170) || PyStr.between 178 179 c || (PyStr.ord c =? 181) ||
  PyStr.between 185 186 c || PyStr.between 188 190 c ||
  PyStr.between 192 214 c || PyStr.between 216 246 c || PyStr.between 248 255 c.
Definition word (c : ascii) : bool := isalnum c || (PyStr.ord c =? 95).

Definition push (open : bool) (c : ascii) (cap : string) : string :=
  if open then cap +:+ String c EmptyString else cap.

(** [match_here p s open cap]: match the pattern [p] at the start of [s];
    the result is the text of group 1 and the unread rest of [s]. *)
Fixpoint match_here (p : list item) (s : string) (open : bool) (cap : string)
  {struct p} : option (string * string) :=
  match p with
  | [] => Some (cap, s)
  | One cls :: p' =>
      match s with
      | String c s' =>
          if cls c then match_here p' s' open (push open c cap) else None
      | EmptyString => None
      end
  | GroupOpen :: p' => match_here p' s true EmptyString
  | GroupClose :: p' => match_here p' s false cap
  | PlusLazy cls :: p' =>
      (fix more (s : string) (cap : string) {struct s} :=
         match s with
         | String c s' =>
             if cls c then
               match match_here p' s' open (push open c cap) with
               | Some r => Some r
               | None => more s' (push open c cap)
               end
             else None
         | EmptyString => None
         end) s cap
  | PlusGreedy cls :: p' =>
      (fix more (s : string) (cap : string) {struct s} :=
         match s with
         | String c s' =>
             if cls c then
               match more s' (push open c cap) with
               | Some r => Some r
               | None => match_here p' s' open (push open c cap)
               end
             else None
         | EmptyString => None
         end) s cap
  end.

(** A replacement template: literal text before and after [\1]. *)
Record template : Type := Template { before : string; after : string }.

Definition expand (t : template) (cap : string) : string :=
  before t +:+ cap +:+ after t.

(** [skip] counts the characters of [s] still covered by the last match. *)
Fixpoint sub_from (p : list item) (t : template) (s : string) (skip : nat)
  : string :=
  match s with
  | EmptyString => EmptyString
  | String c s' =>
      match skip with
      | S k => sub_from p t s' k
      | O =>
          match match_here p s false EmptyString with
          | Some (cap, rest) =>
              expand t cap +:+
              sub_from p t s' (String.length s' - String.length rest)
          | None => String c (sub_from p t s' 0)
          end
      end
  end.

(** [re.sub(p, t, s)] *)
Definition sub (p : list item) (t : template) (s : string) : string :=
  sub_from p t s 0.

End Re.

(** ** Python values, dictionaries and exceptions *)

Inductive value : Type :=
| VNone
| VInt (z : Z)
| VStr (s : string)
| VList (items : list string).

Inductive exn : Type := AttributeError | KeyError | TypeError | ValueError.

Inductive outcome (A : Type) : Type :=
| Return (a : A)
| Raise (e : exn).
Arguments Return {A} a.
Arguments Raise {A} e.

Abbreviation dict := (gmap string value).

(** [bool(v)] *)
Definition truthy (v : value) : bool :=
  match v with
  | VNone => false
  | VInt z => negb (z =? 0)%Z
  | VStr s => PyStr.nonempty s
  | VList items => match items with [] => false | _ => true end
  end.

(** [bool(x)] of a variable that holds [None] or a [str]. *)
Definition truthy_opt (x : option string) : bool :=
  match x with
  | None => false
  | Some s => PyStr.nonempty s
  end.

(** [any(d.values())] *)
Definition any_values (d : dict) : bool :=
  existsb truthy (map snd (map_to_list d)).

(** A statement runs on the dictionary it mutates; what it wrote before
    raising stays written. *)
Module Stmt.

Definition M (A : Type) : Type := dict -> outcome A * dict.

Definition ret {A} (a : A) : M A := fun d => (Return a, d).

Definition bind {A B} (m : M A) (k : A -> M B) : M B :=
  fun d =>
    match m d with
    | (Return a, d') => k a d'
    | (Raise e, d') => (Raise e, d')
    end.

Definition raise {A} (e : exn) : M A := fun d => (Raise e, d).

(** [try: body except Exception as e: handler]; the exceptions of
    this model are all subclasses of [Exception]. *)
Definition try_except (body : M unit) (handler : exn -> M unit) : M unit :=
  fun d =>
    match body d with
    | (Return tt, d') => (Return tt, d')
    | (Raise e, d') => handler e d'
    end.

Definition get : M dict := fun d => (Return d, d).

(** [d[k]] *)
Definition getitem (k : string) : M value :=
  fun d =>
    match d !! k with
    | Some v => (Return v, d)
    | None => (Raise KeyError, d)
    end.

(** [d[k] = v] *)
Definition setitem (k : string) (v : value) : M unit :=
  fun d => (Return tt, <[k := v]> d).

(** [v + n] for an [int] literal [n] *)
Definition add_int (v : value) (n : Z) : M value :=
  match v with
  | VInt z => ret (VInt (z + n))
  | _ => raise TypeError
  end.

(** [d[k] += n] *)
Definition iadd_item (k : string) (n : Z) : M unit :=
  bind (getitem k) (fun v =>
  bind (add_int v n) (fun v' =>
  setitem k v')).

(** [d[k].append(x)]: the list stored under [k] grows in place. *)
Definition append_item (k : string) (x : string) : M unit :=
  bind (getitem k) (fun v =>
  match v with
  | VList items => setitem k (VList (items ++ [x]))
  | _ => raise AttributeError
  end).

(** [v.split('\n')]: only a [str] has the method with a [str] separator. *)
Definition split_lines (v : value) : M (list string) :=
  match v with
  | VStr s => ret (PyStr.split PyStr.newline s)
  | VNone | VInt _ | VList _ => raise AttributeError
  end.

(** What the caller of a function made of one [try] sees. *)
Definition returns (m : M unit) (d : dict) : outcome dict :=
  match m d with
  | (Return tt, d') => Return d'
  | (Raise e, _) => Raise e
  end.

End Stmt.

#[global] Instance stmt_ret : MRet Stmt.M := @Stmt.ret.
#[global] Instance stmt_bind : MBind Stmt.M := fun A B k m => Stmt.bind m k.

Definition nl : string := String PyStr.newline EmptyString.

(** ** Section classifier: [format_report_for_display] *)

(** The four tests of the [if]/[elif] chain, as the source writes them. In
    Python [and] binds tighter than [or], so the fourth reads
    [a or (b and a)]. *)
Definition overview_test (line_lower : string) : bool :=
  PyStr.contains "executive summary" line_lower
  || PyStr.contains "key findings" line_lower.

Definition detailed_analysis_test (line_lower : string) : bool :=
  PyStr.contains "detailed competitor analysis" line_lower
  || PyStr.contains "swot" line_lower.

Definition competitor_matrix_test (line_lower : string) : bool :=
  PyStr.contains "comparison matrix" line_lower
  || PyStr.contains "competitive comparison" line_lower.

Definition recommendations_test (line_lower : string) : bool :=
  PyStr.contains "recommendation" line_lower
  || (PyStr.contains "strategic" line_lower
      && PyStr.contains "recommendation" line_lower).

(** The chain itself; the result is the new value of [current_section]. *)
Definition detect_header (line_lower : string) : option string :=
  if overview_test line_lower then Some "overview"
  else if detailed_analysis_test line_lower then Some "detailed_analysis"
  else if competitor_matrix_test line_lower then Some "competitor_matrix"
  else if recommendations_test line_lower then Some "recommendations"
  else None.

(** [line.lower().strip()] *)
Definition line_lower (line : string) : string := PyStr.strip (PyStr.lower line).

(** [if current_section: sections[current_section] = '\n'.join(current_content)] *)
Definition flush (current_section : option string) (current_content : list string)
  : Stmt.M unit :=
  match current_section with
  | Some key =>
      if PyStr.nonempty key
      then Stmt.setitem key (VStr (PyStr.join nl current_content))
      else Stmt.ret tt
  | None => Stmt.ret tt
  end.

(** The [for line in lines] loop, with its two local variables. *)
Fixpoint section_loop (lines : list string) (current_section : option string)
  (current_content : list string) : Stmt.M (option string * list string) :=
  match lines with
  | [] => Stmt.ret (current_section, current_content)
  | line :: rest =>
      match detect_header (line_lower line) with
      | Some target =>
          flush current_section current_content;;
          section_loop rest (Some target) [line]
      | None =>
          if truthy_opt current_section
          then section_loop rest current_section (current_content ++ [line])
          else section_loop rest current_section current_content
      end
  end.

(** A dictionary with the four section keys. *)
Definition sections_dict (overview detailed_analysis competitor_matrix
  recommendations : string) : dict :=
  <["overview" := VStr overview]>
    (<["detailed_analysis" := VStr detailed_analysis]>
      (<["competitor_matrix" := VStr competitor_matrix]>
        (<["recommendations" := VStr recommendations]> ∅))).

(** The literal [sections] starts from. *)
Definition empty_sections : dict := sections_dict "" "" "" "".

(** The body of the [try]. *)
Definition format_report_body (report_content : value) : Stmt.M unit :=
  lines ← Stmt.split_lines report_content;
  st ← section_loop lines None [];
  flush (fst st) (snd st);;
  sections ← Stmt.get;
  if negb (any_values sections)
  then Stmt.setitem "overview" report_content
  else Stmt.ret tt.

Definition format_report_for_display (report_content : value) : outcome dict :=
  Stmt.returns
    (Stmt.try_except (format_report_body report_content)
       (fun _ => Stmt.setitem "overview" report_content))
    empty_sections.

(** ** Metrics extractor: [extract_key_metrics] *)

(** A dictionary with the four metric keys. *)
Definition metrics_dict (num_competitors : Z) (key_findings : list string)
  (threat_level : string) (opportunities : Z) : dict :=
  <["num_competitors" := VInt num_competitors]>
    (<["key_findings" := VList key_findings]>
      (<["threat_level" := VStr threat_level]>
        (<["opportunities" := VInt opportunities]> ∅))).

(** The literal [metrics] starts from. *)
Definition default_metrics : dict := metrics_dict 0 [] "Medium" 0.

(** [not any(x in line.lower() for x in ['recommendation', 'summary', 'finding'])] *)
Definition is_competitor_heading (line : string) : bool :=
  PyStr.startswith line "### " &&
  negb (existsb (fun x => PyStr.contains x (PyStr.lower line))
          ["recommendation"; "summary"; "finding"]).

Fixpoint competitor_loop (lines : list string) : Stmt.M unit :=
  match lines with
  | [] => Stmt.ret tt
  | line :: rest =>
      if is_competitor_heading line
      then Stmt.iadd_item "num_competitors" 1;; competitor_loop rest
      else competitor_loop rest
  end.

Definition finding_markers : list string := ["1."; "2."; "3."; "4."; "5."].

(** The second loop; [continue] and [break] are the recursive call and its
    absence. *)
Fixpoint findings_loop (lines : list string) (in_findings : bool) : Stmt.M unit :=
  match lines with
  | [] => Stmt.ret tt
  | line :: rest =>
      if PyStr.contains "key findings" (PyStr.lower line)
      then findings_loop rest true
      else if in_findings then
        if PyStr.startswith_any (PyStr.strip line) finding_markers
        then Stmt.append_item "key_findings"
               (PyStr.strip (PyStr.slice_from 3 (PyStr.strip line)));;
             findings_loop rest in_findings
        else if PyStr.startswith line "##"
        then Stmt.ret tt
        else findings_loop rest in_findings
      else findings_loop rest in_findings
  end.

Definition opportunity_markers : list string := ["1."; "2."; "3."; "-"; "*"].

Definition is_opportunity_trigger (line : string) : bool :=
  PyStr.contains "market opportunities" (PyStr.lower line)
  || PyStr.contains "opportunities" (PyStr.lower line).

Fixpoint opportunities_loop (lines : list string) (in_opportunities : bool)
  : Stmt.M unit :=
  match lines with
  | [] => Stmt.ret tt
  | line :: rest =>
      if is_opportunity_trigger line
      then opportunities_loop rest true
      else if in_opportunities then
        if PyStr.startswith_any (PyStr.strip line) opportunity_markers
        then Stmt.iadd_item "opportunities" 1;;
             opportunities_loop rest in_opportunities
        else if PyStr.startswith line "##"
        then Stmt.ret tt
        else opportunities_loop rest in_opportunities
      else opportunities_loop rest in_opportunities
  end.

(** The body of the [try]. *)
Definition extract_metrics_body (report_content : value) : Stmt.M unit :=
  lines ← Stmt.split_lines report_content;
  competitor_loop lines;;
  findings_loop lines false;;
  opportunities_loop lines false.

(** The handler only logs. *)
Definition extract_key_metrics (report_content : value) : outcome dict :=
  Stmt.returns
    (Stmt.try_except (extract_metrics_body report_content)
       (fun _ => Stmt.ret tt))
    default_metrics.

(** ** The clock *)

(** A value of [datetime.now()]: its date, with [1 <= month <= 12] and a
    year of four digits. *)
Record datetime : Type := { year : nat; month : nat; day : nat }.

Definition digit (n : nat) : ascii := ascii_of_nat (48 + n mod 10).

Definition two_digits (n : nat) : string :=
  String (digit (n / 10)) (String (digit n) EmptyString).

Definition four_digits (n : nat) : string :=
  String (digit (n / 1000)) (String (digit (n / 100)) (two_digits n)).

Definition month_names : list string :=
  ["January"; "February"; "March"; "April"; "May"; "June"; "July";
   "August"; "September"; "October"; "November"; "December"].

(** [strftime('%B %d, %Y')] *)
Definition strftime_long (now : datetime) : string :=
  nth (month now - 1) month_names "" +:+ " " +:+ two_digits (day now)
  +:+ ", " +:+ four_digits (year now).

(** [strftime('%Y%m%d')] *)
Definition strftime_stamp (now : datetime) : string :=
  four_digits (year now) +:+ two_digits (month now) +:+ two_digits (day now).

(** ** Markup-to-document renderer: [PDFReportGenerator] *)

(** Calls that may raise, one after the other: the first exception ends
    the sequence. *)
Definition outcome_bind {A B : Type} (m : outcome A) (k : A -> outcome B)
  : outcome B :=
  match m with
  | Return a => k a
  | Raise e => Raise e
  end.

#[global] Instance outcome_ret : MRet outcome := @Return.
#[global] Instance outcome_mbind : MBind outcome :=
  fun A B k m => outcome_bind m k.

Module PDFReportGenerator.

(** The fields of [self] that the block sequence depends on. *)
Record self : Type := { company_name : string; industry : string }.

Inductive style : Type :=
| CustomTitle | CustomHeading2 | CustomHeading3 | CustomBody | CustomBullet.

Inductive alignment : Type := TA_LEFT | TA_CENTER | TA_JUSTIFY.

(** The settings [_create_custom_styles] writes: the font size and, where
    the source sets one, the alignment. *)
Definition fontSize (st : style) : nat :=
  match st with
  | CustomTitle => 24
  | CustomHeading2 => 16
  | CustomHeading3 => 14
  | CustomBody => 11
  | CustomBullet => 10
  end.

Definition style_alignment (st : style) : option alignment :=
  match st with
  | CustomTitle => Some TA_CENTER
  | CustomBody => Some TA_JUSTIFY
  | CustomHeading2 | CustomHeading3 | CustomBullet => None
  end.

(** The flowables handed to the layout engine: a paragraph that was
    built, a spacer, a page break. A spacer's height is kept as the source
    writes it, in hundredths of an inch. *)
Inductive flowable : Type :=
| Para (text : string) (st : style)
| Spacer (width : nat) (height : nat)
| PageBreak.

Definition star : ascii := ascii_of_nat 42.
Definition backtick : ascii := ascii_of_nat 96.
Definition dquote : string := String (ascii_of_nat 34) EmptyString.

(** [\*\*(.+?)\*\*] *)
Definition bold_pattern : list Re.item :=
  [Re.One (Re.lit star); Re.One (Re.lit star);
   Re.GroupOpen; Re.PlusLazy Re.dot; Re.GroupClose;
   Re.One (Re.lit star); Re.One (Re.lit star)].

(** [\*(.+?)\*] *)
Definition italic_pattern : list Re.item :=
  [Re.One (Re.lit star);
   Re.GroupOpen; Re.PlusLazy Re.dot; Re.GroupClose;
   Re.One (Re.lit star)].

(** [`(.+?)`] *)
Definition code_pattern : list Re.item :=
  [Re.One (Re.lit backtick);
   Re.GroupOpen; Re.PlusLazy Re.dot; Re.GroupClose;
   Re.One (Re.lit backtick)].

Definition _clean_markdown (text : string) : string :=
  let text := Re.sub bold_pattern (Re.Template "<b>" "</b>") text in
  let text := Re.sub italic_pattern (Re.Template "<i>" "</i>") text in
  let text :=
    Re.sub code_pattern
      (Re.Template ("<font name=" +:+ dquote +:+ "Courier" +:+ dquote +:+ ">")
         "</font>") text in
  text.

(** The bullet glyph U+2022 lies outside the character range of the
    embedding; it is kept as the three bytes of its UTF-8 form. *)
Definition bullet_glyph : string :=
  String (ascii_of_nat 226) (String (ascii_of_nat 128)
    (String (ascii_of_nat 162) EmptyString)).

Section Build.

(** ReportLab's [Paragraph(text, style)] parses [text] as inline markup
    when the object is built, and raises [ValueError] on a text it cannot
    parse (a tag left open, tags that cross). That parser belongs to the
    library, not to this repository: [accepts st text] says whether the
    constructor returns, and every function below is read for any such
    [accepts]. [Spacer(...)] and [PageBreak()] parse nothing. *)
Variable accepts : style -> string -> bool.

Definition Paragraph (text : string) (st : style) : outcome flowable :=
  if accepts st text then Return (Para text st) else Raise ValueError.

Definition _create_title_page (me : self) (now : datetime)
  : outcome (list flowable) :=
  let elements := [] in
  title ← Paragraph "COMPETITOR ANALYSIS REPORT" CustomTitle;
  let elements := elements ++ [title] in
  let elements := elements ++ [Spacer 1 30] in
  company ← Paragraph ("<b>" +:+ company_name me +:+ "</b>") CustomHeading2;
  let elements := elements ++ [company] in
  let elements := elements ++ [Spacer 1 20] in
  industry ← Paragraph ("Industry: " +:+ industry me) CustomBody;
  let elements := elements ++ [industry] in
  let elements := elements ++ [Spacer 1 10] in
  date ← Paragraph ("Report Date: " +:+ strftime_long now) CustomBody;
  let elements := elements ++ [date] in
  let elements := elements ++ [PageBreak] in
  mret elements.

(** One turn of the [while] loop: the flowables added for [lines[i]], or
    the exception that ends the loop. *)
Definition parse_line (raw : string) : outcome (list flowable) :=
  let line := PyStr.strip raw in
  if negb (PyStr.nonempty line) then mret []
  else if PyStr.startswith line "# " then
    let text := PyStr.strip (PyStr.slice_from 2 line) in
    p ← Paragraph text CustomTitle;
    mret [p; Spacer 1 20]
  else if PyStr.startswith line "## " then
    let text := PyStr.strip (PyStr.slice_from 3 line) in
    p ← Paragraph text CustomHeading2;
    mret [Spacer 1 15; p; Spacer 1 10]
  else if PyStr.startswith line "### " then
    let text := PyStr.strip (PyStr.slice_from 4 line) in
    p ← Paragraph text CustomHeading3;
    mret [p; Spacer 1 5]
  else if PyStr.startswith line "- " || PyStr.startswith line "* " then
    let text := PyStr.strip (PyStr.slice_from 2 line) in
    bullet ← Paragraph (bullet_glyph +:+ " " +:+ text) CustomBullet;
    mret [bullet]
  else if PyStr.startswith line "1. " || PyStr.startswith line "2. "
          || PyStr.startswith line "3. " then
    let text := PyStr.strip (PyStr.slice_from 3 line) in
    let num := PyStr.first_char line in
    bullet ← Paragraph (num +:+ ". " +:+ text) CustomBullet;
    mret [bullet]
  else if PyStr.startswith line "---" then mret [Spacer 1 10]
  else if PyStr.nonempty line then
    let text := _clean_markdown line in
    para ← Paragraph text CustomBody;
    mret [para]
  else mret [].

(** The [while] loop over [lines], with the list [elements] it appends
    to. *)
Fixpoint parse_loop (lines : list string) (elements : list flowable)
  : outcome (list flowable) :=
  match lines with
  | [] => mret elements
  | raw :: lines' =>
      added ← parse_line raw;
      parse_loop lines' (elements ++ added)
  end.

Definition _parse_report_content (content : string) : outcome (list flowable) :=
  parse_loop (PyStr.split PyStr.newline content) [].

(** [generate_pdf] up to its call [doc.build(elements)]: the list
    [elements] handed to the layout engine, or the exception the [except]
    clause logs and raises again. Laying the list out into bytes is the
    layout engine's part. *)
Definition generate_pdf (me : self) (now : datetime) (report_content : string)
  : outcome (list flowable) :=
  match
    (let elements := [] in
     title_page ← _create_title_page me now;
     let elements := elements ++ title_page in
     body ← _parse_report_content report_content;
     let elements := elements ++ body in
     mret elements)
  with
  | Return elements => Return elements
  | Raise e => Raise e
  end.

End Build.

End PDFReportGenerator.

(** ** Export file name: [generate_filename] *)

Definition hyphen : ascii := ascii_of_nat 45.

(** [[^\w\s-]] *)
Definition unsafe_char (c : ascii) : bool :=
  negb (Re.word c || Re.space c || Ascii.eqb c hyphen).

(** [[-\s]] *)
Definition separator_char (c : ascii) : bool :=
  Ascii.eqb c hyphen || Re.space c.

Definition generate_filename (company_name extension : string) (now : datetime)
  : string :=
  let clean_name :=
    Re.sub [Re.One unsafe_char] (Re.Template "" "") company_name in
  let clean_name :=
    Re.sub [Re.PlusGreedy separator_char] (Re.Template "_" "") clean_name in
  let timestamp := strftime_stamp now in
  "competitor_analysis_" +:+ clean_name +:+ "_" +:+ timestamp +:+ "."
  +:+ extension.

(** The sanitization rule in the words of the specification: drop every
    character that is not alphanumeric, underscore, whitespace or hyphen,
    then turn each run of hyphens and whitespace into one underscore. *)
Definition spec_keep (c : ascii) : bool :=
  Re.isalnum c || (PyStr.ord c =? 95) || PyStr.isspace c || (PyStr.ord c =? 45).

Fixpoint spec_strip (s : string) : string :=
  match s with
  | EmptyString => EmptyString
  | String c s' => if spec_keep c then String c (spec_strip s') else spec_strip s'
  end.

Definition spec_sep (c : ascii) : bool := (PyStr.ord c =? 45) || PyStr.isspace c.

Fixpoint spec_collapse (in_run : bool) (s : string) : string :=
  match s with
  | EmptyString => EmptyString
  | String c s' =>
      if spec_sep c
      then if in_run then spec_collapse true s'
           else String (ascii_of_nat 95) (spec_collapse true s')
      else String c (spec_collapse false s')
  end.

Definition spec_sanitize (name : string) : string :=
  spec_collapse false (spec_strip name).

(** ** Pure readings of the three loops of [extract_key_metrics]

    What each loop adds to the dictionary, as a function of the lines. *)

Fixpoint count_competitors (lines : list string) : Z :=
  match lines with
  | [] => 0
  | line :: rest =>
      ((if is_competitor_heading line then 1 else 0) + count_competitors rest)%Z
  end.

Fixpoint collect_findings (lines : list string) (in_findings : bool) : list string :=
  match lines with
  | [] => []
  | line :: rest =>
      if PyStr.contains "key findings" (PyStr.lower line)
      then collect_findings rest true
      else if in_findings then
        if PyStr.startswith_any (PyStr.strip line) finding_markers
        then PyStr.strip (PyStr.slice_from 3 (PyStr.strip line))
             :: collect_findings rest in_findings
        else if PyStr.startswith line "##" then []
        else collect_findings rest in_findings
      else collect_findings rest in_findings
  end.

Fixpoint count_opportunities (lines : list string) (in_opportunities : bool) : Z :=
  match lines with
  | [] => 0
  | line :: rest =>
      if is_opportunity_trigger line
      then count_opportunities rest true
      else if in_opportunities then
        if PyStr.startswith_any (PyStr.strip line) opportunity_markers
        then (1 + count_opportunities rest in_opportunities)%Z
        else if PyStr.startswith line "##" then 0%Z
        else count_opportunities rest in_opportunities
      else count_opportunities rest in_opportunities
  end.

(** The leading run of characters of a class, as [x+] consumes it. *)
Fixpoint run_length (cls : ascii -> bool) (s : string) : nat :=
  match s with
  | EmptyString => 0
  | String c s' => if cls c then S (run_length cls s') else 0
  end.

Fixpoint drop_run (cls : ascii -> bool) (s : string) : string :=
  match s with
  | EmptyString => EmptyString
  | String c s' => if cls c then drop_run cls s' else s
  end.

(** The keywords the classifier recognizes; [strategic] is not one of
    them, see [recommendations_test]. *)
Definition heading_keywords : list string :=
  ["executive summary"; "key findings"; "detailed competitor analysis"; "swot";
   "comparison matrix"; "competitive comparison"; "recommendation"].

(** The text holds one of the keywords, whatever the case of its letters. *)
Definition has_heading_keyword (text : string) : bool :=
  existsb (fun keyword => PyStr.contains keyword (PyStr.lower text))
    heading_keywords.

(** [result["key_findings"]] of what the extractor returned. *)
Definition key_findings_of (result : outcome dict) : option value :=
  match result with
  | Return metrics => metrics !! "key_findings"
  | Raise _ => None
  end.

(** A line that is no section header for the classifier. *)
Definition plain_line (line : string) : Prop :=
  detect_header (line_lower line) = None.

(** ** Sample reports *)

(** A report with a preamble and the four headers in order. *)
Definition sample_report : string :=
  "Prepared for the board" +:+ nl +:+
  "# Executive Summary" +:+ nl +:+ "We lead the market." +:+ nl +:+
  "## Detailed Competitor Analysis" +:+ nl +:+ "Rival one is strong." +:+ nl +:+
  "## Competitive Comparison Matrix" +:+ nl +:+ "Price and reach." +:+ nl +:+
  "## Strategic Recommendations" +:+ nl +:+ "Invest in support." +:+ nl +:+
  "Hire two engineers.".

(** A report with a block of five key findings. *)
Definition sample_findings : string :=
  "# Report" +:+ nl +:+ "## Key Findings" +:+ nl +:+
  "1. Prices fell" +:+ nl +:+ "2.  Two rivals merged " +:+ nl +:+
  "3. Churn is flat" +:+ nl +:+ "4. Support is slow" +:+ nl +:+
  "5. Margins hold" +:+ nl +:+ "## Next steps" +:+ nl +:+ "1. Not a finding".

(** A report whose first numbered finding holds the words [key findings]. *)
Definition dropped_finding_report : string :=
  "## Key Findings" +:+ nl +:+
  "1. The key findings are final" +:+ nl +:+ "2. Prices fell" +:+ nl +:+
  "3. Churn is flat" +:+ nl +:+ "4. Support is slow" +:+ nl +:+
  "5. Margins hold" +:+ nl +:+ "## Next steps".

(** A report whose heading after the findings holds the words again. *)
Definition unclosed_findings_report : string :=
  "## Key Findings" +:+ nl +:+
  "1. Rivals merged" +:+ nl +:+ "2. Prices fell" +:+ nl +:+
  "3. Churn is flat" +:+ nl +:+ "4. Support is slow" +:+ nl +:+
  "5. Margins hold" +:+ nl +:+ "## Beyond the key findings" +:+ nl +:+
  "1. Not a finding".

(** ** Shapes kept by the classifier *)

(** The four keys of [sections]. *)
Definition section_keys : list string :=
  ["overview"; "detailed_analysis"; "competitor_matrix"; "recommendations"].

(** [current_section] holds [None] or one of the four keys. *)
Definition section_state (current_section : option string) : Prop :=
  match current_section with
  | None => True
  | Some key => In key section_keys
  end.

(** While a section is open, [current_content] starts with its header line,
    which is not empty; before the first header it is empty. *)
Definition content_state (current_section : option string)
  (current_content : list string) : Prop :=
  match current_section with
  | None => current_content = []
  | Some _ =>
      exists header body,
        current_content = header :: body /\ PyStr.nonempty header = true
  end.

(** A dictionary of the shape of [sections]. *)
Definition is_sections (d : dict) : Prop :=
  exists o a c r, d = sections_dict o a c r.

(** Every string stored in the dictionary occurs in the text. *)
Definition pieces_of (text : string) (d : dict) : Prop :=
  forall key s, d !! key = Some (VStr s) -> PyStr.contains s text = true.

(** [format_report_for_display] from the lines on: what the [try] does once
    [report_content] is split. *)
Definition classify_lines (report_content : value) (lines : list string)
  : outcome dict :=
  Stmt.returns
    (Stmt.try_except
       (st ← section_loop lines None [];
        flush (fst st) (snd st);;
        sections ← Stmt.get;
        if negb (any_values sections)
        then Stmt.setitem "overview" report_content
        else Stmt.ret tt)
       (fun _ => Stmt.setitem "overview" report_content))
    empty_sections.

(** ** Counting what the renderer emits *)

Definition is_paragraph (f : PDFReportGenerator.flowable) : bool :=
  match f with
  | PDFReportGenerator.Para _ _ => true
  | _ => false
  end.

(** A line that is not blank and is no rule of dashes. *)
Definition is_text_line (raw : string) : bool :=
  PyStr.nonempty (PyStr.strip raw)
  && negb (PyStr.startswith (PyStr.strip raw) "---").

(** Every character of [s] is in the class. *)
Fixpoint all_chars (cls : ascii -> bool) (s : string) : bool :=
  match s with
  | EmptyString => true
  | String c s' => cls c && all_chars cls s'
  end.

(** The characters that open a heading, a bullet or a numbered item. *)
Definition marker_start (c : ascii) : bool :=
  existsb (Ascii.eqb c) ["#"; "-"; "*"; "1"; "2"; "3"]%char.

(** The markers of a heading, a bullet and a numbered item, without the
    space that must follow them. *)
Definition bare_markers : list string :=
  ["#"; "##"; "###"; "-"; "*"; "1."; "2."; "3."].

(** The character [c] does not occur in [s]. *)
Definition free_of (c : ascii) (s : string) : bool :=
  all_chars (fun x => negb (Re.lit c x)) s.

(** A text without the two characters of inline markup. *)
Definition markup_free (s : string) : bool :=
  free_of PDFReportGenerator.star s && free_of PDFReportGenerator.backtick s.

(** A span between two marks [c]: the shape of the italic and the code
    pattern. *)
Definition single_pattern (c : ascii) : list Re.item :=
  [Re.One (Re.lit c); Re.GroupOpen; Re.PlusLazy Re.dot; Re.GroupClose;
   Re.One (Re.lit c)].

(** The replacement of the code pattern. *)
Definition code_template : Re.template :=
  Re.Template ("<font name=" +:+ PDFReportGenerator.dquote +:+ "Courier"
               +:+ PDFReportGenerator.dquote +:+ ">") "</font>".

(** ** An acceptor for the examples

    What ReportLab's parser takes is not written in this repository. The
    examples run the renderer with [nested_tags], which takes a text whose
    tags are closed in the order they were opened, as a parser of XML-like
    markup does: a tag runs from [<] to the next [>] and its name ends at
    the first blank. *)

Fixpoint take_name (tag : string) : string :=
  match tag with
  | EmptyString => EmptyString
  | String c tag' =>
      if PyStr.isspace c then EmptyString else String c (take_name tag')
  end.

(** [opened] holds the names of the tags still open, the last one first;
    [tag] holds the characters read since a [<], if one is open. *)
Fixpoint nested_from (s : string) (opened : list string) (tag : option string)
  : bool :=
  match s with
  | EmptyString =>
      match tag, opened with
      | None, [] => true
      | _, _ => false
      end
  | String c s' =>
      match tag with
      | None =>
          nested_from s' opened (if Ascii.eqb c "<" then Some EmptyString else None)
      | Some t =>
          if Ascii.eqb c ">" then
            match t with
            | String "/" name =>
                match opened with
                | top :: below => String.eqb name top && nested_from s' below None
                | [] => false
                end
            | _ => nested_from s' (take_name t :: opened) None
            end
          else nested_from s' opened (Some (t +:+ String c EmptyString))
      end
  end.

Definition nested_tags (st : PDFReportGenerator.style) (text : string) : bool :=
  nested_from text [] None.

(** ** The name part of the export file name *)

(** The local [clean_name] of [generate_filename]. *)
Definition clean_name (company_name : string) : string :=
  Re.sub [Re.PlusGreedy separator_char] (Re.Template "_" "")
    (Re.sub [Re.One unsafe_char] (Re.Template "" "") company_name).

(** A word character or the dot before the extension. *)
Definition filename_char (c : ascii) : bool := Re.word c || Ascii.eqb c ".".

(** ** Text export: [clean_text_for_export] *)

(** [str.isprintable] on one character. *)
Definition isprintable (c : ascii) : bool :=
  PyStr.between 32 126 c || PyStr.between 161 172 c || PyStr.between 174 255 c.

(** [\s*\n] at the start of [s], greedy with backtracking: the rest of [s]
    after the last newline of its leading white space, if there is one. *)
Fixpoint after_blank_run (s : string) : option string :=
  match s with
  | EmptyString => None
  | String c s' =>
      if PyStr.isspace c then
        match after_blank_run s' with
        | Some rest => Some rest
        | None => if Ascii.eqb c PyStr.newline then Some s' else None
        end
      else None
  end.

(** [re.sub(r'\n\s*\n', '\n\n', s)]; [skip] counts the characters of [s]
    still covered by the last match. *)
Fixpoint collapse_blank_from (s : string) (skip : nat) : string :=
  match s with
  | EmptyString => EmptyString
  | String c s' =>
      match skip with
      | S k => collapse_blank_from s' k
      | O =>
          if Ascii.eqb c PyStr.newline then
            match after_blank_run s' with
            | Some rest =>
                nl +:+ nl +:+
                collapse_blank_from s' (String.length s' - String.length rest)
            | None => String c (collapse_blank_from s' 0)
            end
          else String c (collapse_blank_from s' 0)
      end
  end.

(** [''.join(char for char in text if char.isprintable() or char == '\n')] *)
Fixpoint keep_printable (s : string) : string :=
  match s with
  | EmptyString => EmptyString
  | String c s' =>
      if isprintable c || Ascii.eqb c PyStr.newline
      then String c (keep_printable s')
      else keep_printable s'
  end.

Definition clean_text_for_export (text : string) : string :=
  let text := collapse_blank_from text 0 in
  let text := keep_printable text in
  PyStr.strip text.

(** A character that may stay in an exported text. *)
Definition export_char (c : ascii) : bool :=
  isprintable c || Ascii.eqb c PyStr.newline.

(** The text starts with a character that is no white space. *)
Definition starts_with_text (s : string) : bool :=
  match s with
  | EmptyString => false
  | String c _ => negb (PyStr.isspace c)
  end.

(** The text is not empty and does not end with white space. *)
Definition ends_with_text (s : string) : Prop :=
  PyStr.nonempty s = true /\ PyStr.rstrip s = s.

(** ** The application: session state and configuration *)

(** What the application keeps in [st.session_state]. *)
Inductive state_value : Type :=
| SBool (b : bool)
| SNone
| SStr (s : string).

(** [if key not in st.session_state: st.session_state.key = default] *)
Definition set_if_missing (key : string) (default : state_value)
  (state : gmap string state_value) : gmap string state_value :=
  match state !! key with
  | Some _ => state
  | None => <[key := default]> state
  end.

Definition initialize_session_state (state : gmap string state_value)
  : gmap string state_value :=
  let state := set_if_missing "analysis_complete" (SBool false) state in
  let state := set_if_missing "report_content" SNone state in
  let state := set_if_missing "company_name" (SStr "") state in
  let state := set_if_missing "industry" (SStr "") state in
  let state := set_if_missing "analysis_running" (SBool false) state in
  state.

Definition session_keys : list string :=
  ["analysis_complete"; "report_content"; "company_name"; "industry";
   "analysis_running"].

(** [config.validate_config]; the two keys are the module constants read
    from the environment. *)
Definition validate_config (OPENAI_API_KEY SERPAPI_API_KEY : string)
  : bool * string :=
  if negb (PyStr.nonempty OPENAI_API_KEY) then
    (false, "OPENAI_API_KEY not found in environment variables")
  else if negb (PyStr.nonempty SERPAPI_API_KEY) then
    (false, "SERPAPI_API_KEY not found in environment variables")
  else if (PyStr.startswith OPENAI_API_KEY "your_"
           || PyStr.startswith OPENAI_API_KEY "sk-")
          && PyStr.startswith OPENAI_API_KEY "your_" then
    (false, "Please replace the placeholder OPENAI_API_KEY with your actual API key")
  else if PyStr.startswith SERPAPI_API_KEY "your_" then
    (false, "Please replace the placeholder SERPAPI_API_KEY with your actual API key")
  else (true, "Configuration validated successfully").

(** * Properties *)

(** ** Strings *)

Section StringFacts.

Lemma append_nil_r (s : string) : s +:+ "" = s.
Proof. induction s as [|c s IH]; simpl; [reflexivity | now rewrite IH]. Qed.

Lemma append_assoc (a b c : string) : (a +:+ b) +:+ c = a +:+ (b +:+ c).
Proof. induction a as [|x a IH]; simpl; [reflexivity | now rewrite IH]. Qed.

Lemma startswith_spec (s p : string) :
  PyStr.startswith s p = true <-> exists q, s = p +:+ q.
Proof.
  revert s. induction p as [|c p IH]; intros s; simpl.
  - split; [intros _; now exists s | reflexivity].
  - destruct s as [|d s].
    + split; [discriminate | intros [q Hq]; discriminate].
    + rewrite andb_true_iff, Ascii.eqb_eq, IH. split.
      * intros [-> [q ->]]. now exists q.
      * intros [q Hq]. injection Hq as -> ->. split; [reflexivity | now exists q].
Qed.

Lemma contains_spec (n h : string) :
  PyStr.contains n h = true <-> exists p q, h = p +:+ n +:+ q.
Proof.
  induction h as [|c h IH]; cbn [PyStr.contains].
  - rewrite orb_false_r, startswith_spec. split.
    + intros [q Hq]. now exists "", q.
    + intros [p [q Hq]]. destruct p; [now exists q | discriminate].
  - rewrite orb_true_iff, startswith_spec, IH. split.
    + intros [[q Hq] | [p [q Hq]]].
      * now exists "", q.
      * exists (String c p), q. simpl. now rewrite Hq.
    + intros [p [q Hq]]. destruct p as [|d p].
      * left. now exists q.
      * right. exists p, q. simpl in Hq. congruence.
Qed.

Lemma contains_inside (n a b : string) :
  PyStr.contains n (a +:+ n +:+ b) = true.
Proof. apply contains_spec. now exists a, b. Qed.

(** A text that holds [a ++ b] holds [b]. *)
Lemma contains_suffix_part (a b h : string) :
  PyStr.contains (a +:+ b) h = true -> PyStr.contains b h = true.
Proof.
  rewrite !contains_spec. intros [p [q Hq]]. exists (p +:+ a), q.
  now rewrite Hq, !append_assoc.
Qed.

Lemma rstrip_idempotent (s : string) :
  PyStr.rstrip (PyStr.rstrip s) = PyStr.rstrip s.
Proof.
  induction s as [|c s IH]; simpl; [reflexivity |].
  destruct (PyStr.rstrip s) as [|a r] eqn:E.
  - destruct (PyStr.isspace c) eqn:Hc; simpl; [reflexivity | now rewrite Hc].
  - change (PyStr.rstrip (String c (String a r))) with
      (match PyStr.rstrip (String a r) with
       | EmptyString => if PyStr.isspace c then EmptyString else String c EmptyString
       | r0 => String c r0
       end).
    now rewrite IH.
Qed.

Lemma strip_rstrip (s : string) : PyStr.strip (PyStr.rstrip s) = PyStr.strip s.
Proof. unfold PyStr.strip. now rewrite rstrip_idempotent. Qed.

(** Stripping a numbered line [d. t] and cutting three characters leaves
    the text, up to surrounding white space. *)
Lemma numbered_line_text (d : ascii) (t : string) :
  PyStr.isspace d = false ->
  PyStr.strip (PyStr.slice_from 3 (PyStr.strip (String d (String "." (String " " t)))))
  = PyStr.strip t.
Proof.
  intros Hd. unfold PyStr.strip at 2. simpl.
  destruct (PyStr.rstrip t) as [|a r] eqn:E; simpl; rewrite Hd; simpl.
  - unfold PyStr.strip. now rewrite E.
  - rewrite <- E. apply strip_rstrip.
Qed.

Lemma numbered_line_marker (d : ascii) (t : string) :
  PyStr.isspace d = false ->
  PyStr.startswith (PyStr.strip (String d (String "." (String " " t)))) (String d ".") = true.
Proof.
  intros Hd. unfold PyStr.strip. simpl.
  destruct (PyStr.rstrip t) as [|a r] eqn:E; simpl; rewrite Hd; simpl;
    now rewrite Ascii.eqb_refl.
Qed.

(** A line that starts with [#] still starts with [#] once stripped. *)
Lemma strip_hash (s : string) :
  PyStr.startswith s "#" = true -> PyStr.startswith (PyStr.strip s) "#" = true.
Proof.
  destruct s as [|c s]; simpl; [discriminate |].
  rewrite andb_true_r, Ascii.eqb_eq. intros ->.
  assert (Hs : PyStr.isspace "#" = false) by reflexivity.
  unfold PyStr.strip. simpl.
  destruct (PyStr.rstrip s); cbn [PyStr.lstrip]; rewrite Hs;
    now rewrite Ascii.eqb_refl.
Qed.

End StringFacts.

(** ** Regular expressions *)

Section RegexFacts.

Lemma unsafe_char_spec (c : ascii) : unsafe_char c = negb (spec_keep c).
Proof. destruct c as [[] [] [] [] [] [] [] []]; vm_compute; reflexivity. Qed.

Lemma separator_char_spec (c : ascii) : separator_char c = spec_sep c.
Proof. destruct c as [[] [] [] [] [] [] [] []]; vm_compute; reflexivity. Qed.

(** Deleting one-character matches is a filter. *)
Lemma sub_unsafe_strip (s : string) :
  Re.sub [Re.One unsafe_char] (Re.Template "" "") s = spec_strip s.
Proof.
  unfold Re.sub. induction s as [|c s IH]; simpl; [reflexivity |].
  rewrite unsafe_char_spec. destruct (spec_keep c); simpl.
  - now rewrite IH.
  - now rewrite Nat.sub_diag, IH.
Qed.

Variable cls : ascii -> bool.

Lemma drop_run_length (s : string) :
  String.length s - String.length (drop_run cls s) = run_length cls s.
Proof.
  assert (H : String.length (drop_run cls s) + run_length cls s = String.length s).
  { induction s as [|c s IH]; simpl; [reflexivity |].
    destruct (cls c); simpl; lia. }
  lia.
Qed.

(** [x+] at the end of a pattern takes the whole leading run. *)
Lemma match_plus_greedy (s cap : string) :
  Re.match_here [Re.PlusGreedy cls] s false cap =
  match s with
  | String c s' => if cls c then Some (cap, drop_run cls s') else None
  | EmptyString => None
  end.
Proof.
  induction s as [|c s IH]; [reflexivity |].
  simpl in *. destruct (cls c); [| reflexivity].
  rewrite IH. destruct s as [|d s]; [reflexivity |].
  simpl. destruct (cls d); reflexivity.
Qed.

End RegexFacts.

Lemma sub_separator_collapse (s : string) :
  Re.sub_from [Re.PlusGreedy separator_char] (Re.Template "_" "") s 0
  = spec_collapse false s /\
  Re.sub_from [Re.PlusGreedy separator_char] (Re.Template "_" "") s
    (run_length separator_char s)
  = spec_collapse true s.
Proof.
  induction s as [|c s [IH0 IHrun]]; [split; reflexivity |].
  cbn [Re.sub_from run_length spec_collapse].
  rewrite match_plus_greedy, <- separator_char_spec.
  destruct (separator_char c).
  - rewrite drop_run_length, IHrun. split; reflexivity.
  - rewrite IH0. split; reflexivity.
Qed.

Lemma sanitize_refines (name : string) :
  Re.sub [Re.PlusGreedy separator_char] (Re.Template "_" "")
    (Re.sub [Re.One unsafe_char] (Re.Template "" "") name)
  = spec_sanitize name.
Proof.
  rewrite sub_unsafe_strip. unfold Re.sub, spec_sanitize.
  apply sub_separator_collapse.
Qed.

(** The sanitized name holds word characters only. *)
Lemma spec_collapse_word (s : string) (b : bool) (c : ascii) :
  PyStr.contains (String c "") (spec_collapse b (spec_strip s)) = true ->
  Re.word c = true.
Proof.
  revert b. induction s as [|d s IH]; intros b; simpl; [discriminate |].
  destruct (spec_keep d) eqn:Hk; [| apply IH].
  simpl. destruct (spec_sep d) eqn:Hs.
  - destruct b; [apply IH |].
    cbn [PyStr.contains PyStr.startswith]. rewrite andb_true_r, orb_true_iff.
    intros [H | H]; [| now apply IH in H].
    apply Ascii.eqb_eq in H. now subst c.
  - cbn [PyStr.contains PyStr.startswith]. rewrite andb_true_r, orb_true_iff.
    intros [H | H]; [| now apply IH in H].
    apply Ascii.eqb_eq in H. subst c.
    revert Hk Hs. clear.
    destruct d as [[] [] [] [] [] [] [] []]; vm_compute; congruence.
Qed.

(** ** Dictionaries *)

Section DictFacts.

Lemma any_values_true (d : dict) (k : string) (v : value) :
  d !! k = Some v -> truthy v = true -> any_values d = true.
Proof.
  intros Hk Hv. unfold any_values. apply existsb_exists. exists v.
  split; [| exact Hv]. apply in_map_iff. exists (k, v). split; [reflexivity |].
  apply list_elem_of_In, elem_of_map_to_list. exact Hk.
Qed.

Lemma any_values_empty_sections : any_values empty_sections = false.
Proof. vm_compute. reflexivity. Qed.

Variables (o a c r : string).

Lemma sections_set_overview (x : string) :
  <["overview" := VStr x]> (sections_dict o a c r) = sections_dict x a c r.
Proof. unfold sections_dict. now rewrite insert_insert_eq. Qed.

Lemma sections_set_detailed (x : string) :
  <["detailed_analysis" := VStr x]> (sections_dict o a c r) = sections_dict o x c r.
Proof.
  unfold sections_dict.
  rewrite (insert_insert_ne _ "detailed_analysis" "overview") by discriminate.
  now rewrite insert_insert_eq.
Qed.

Lemma sections_set_matrix (x : string) :
  <["competitor_matrix" := VStr x]> (sections_dict o a c r) = sections_dict o a x r.
Proof.
  unfold sections_dict.
  rewrite (insert_insert_ne _ "competitor_matrix" "overview") by discriminate.
  rewrite (insert_insert_ne _ "competitor_matrix" "detailed_analysis") by discriminate.
  now rewrite insert_insert_eq.
Qed.

Lemma sections_set_recommendations (x : string) :
  <["recommendations" := VStr x]> (sections_dict o a c r) = sections_dict o a c x.
Proof.
  unfold sections_dict.
  rewrite (insert_insert_ne _ "recommendations" "overview") by discriminate.
  rewrite (insert_insert_ne _ "recommendations" "detailed_analysis") by discriminate.
  rewrite (insert_insert_ne _ "recommendations" "competitor_matrix") by discriminate.
  now rewrite insert_insert_eq.
Qed.

Lemma sections_get_overview : sections_dict o a c r !! "overview" = Some (VStr o).
Proof. unfold sections_dict. now rewrite lookup_insert_eq. Qed.

End DictFacts.

Section MetricsFacts.

Variables (n : Z) (f : list string) (t : string) (o : Z).

Lemma metrics_get_num : metrics_dict n f t o !! "num_competitors" = Some (VInt n).
Proof. unfold metrics_dict. now rewrite lookup_insert_eq. Qed.

Lemma metrics_get_findings : metrics_dict n f t o !! "key_findings" = Some (VList f).
Proof.
  unfold metrics_dict. rewrite lookup_insert_ne by discriminate.
  now rewrite lookup_insert_eq.
Qed.

Lemma metrics_get_opportunities :
  metrics_dict n f t o !! "opportunities" = Some (VInt o).
Proof.
  unfold metrics_dict. do 3 (rewrite lookup_insert_ne by discriminate).
  now rewrite lookup_insert_eq.
Qed.

Lemma metrics_set_num (x : Z) :
  <["num_competitors" := VInt x]> (metrics_dict n f t o) = metrics_dict x f t o.
Proof. unfold metrics_dict. now rewrite insert_insert_eq. Qed.

Lemma metrics_set_findings (x : list string) :
  <["key_findings" := VList x]> (metrics_dict n f t o) = metrics_dict n x t o.
Proof.
  unfold metrics_dict.
  rewrite (insert_insert_ne _ "key_findings" "num_competitors") by discriminate.
  now rewrite insert_insert_eq.
Qed.

Lemma metrics_set_opportunities (x : Z) :
  <["opportunities" := VInt x]> (metrics_dict n f t o) = metrics_dict n f t x.
Proof.
  unfold metrics_dict.
  rewrite (insert_insert_ne _ "opportunities" "num_competitors") by discriminate.
  rewrite (insert_insert_ne _ "opportunities" "key_findings") by discriminate.
  rewrite (insert_insert_ne _ "opportunities" "threat_level") by discriminate.
  now rewrite insert_insert_eq.
Qed.

(** The three statements that could raise do not, on a dictionary with
    the four metric keys. *)
Lemma iadd_num_run :
  Stmt.iadd_item "num_competitors" 1 (metrics_dict n f t o)
  = (Return tt, metrics_dict (n + 1) f t o).
Proof.
  unfold Stmt.iadd_item, Stmt.bind, Stmt.getitem. rewrite metrics_get_num.
  unfold Stmt.add_int, Stmt.ret, Stmt.setitem. now rewrite metrics_set_num.
Qed.

Lemma iadd_opportunities_run :
  Stmt.iadd_item "opportunities" 1 (metrics_dict n f t o)
  = (Return tt, metrics_dict n f t (o + 1)).
Proof.
  unfold Stmt.iadd_item, Stmt.bind, Stmt.getitem. rewrite metrics_get_opportunities.
  unfold Stmt.add_int, Stmt.ret, Stmt.setitem. now rewrite metrics_set_opportunities.
Qed.

Lemma append_findings_run (x : string) :
  Stmt.append_item "key_findings" x (metrics_dict n f t o)
  = (Return tt, metrics_dict n (f ++ [x]) t o).
Proof.
  unfold Stmt.append_item, Stmt.bind, Stmt.getitem. rewrite metrics_get_findings.
  unfold Stmt.setitem. now rewrite metrics_set_findings.
Qed.

End MetricsFacts.

(** ** The loops of [extract_key_metrics] *)

Ltac stmt_step := unfold mbind, stmt_bind, Stmt.bind, Stmt.ret.

Section ExtractRuns.

Variables (f : list string) (t : string).

Lemma competitor_loop_run (lines : list string) (n o : Z) :
  competitor_loop lines (metrics_dict n f t o)
  = (Return tt, metrics_dict (n + count_competitors lines) f t o).
Proof.
  revert n. induction lines as [|l ls IH]; intros n;
    cbn [competitor_loop count_competitors].
  - stmt_step. now rewrite Z.add_0_r.
  - destruct (is_competitor_heading l).
    + stmt_step. rewrite iadd_num_run, IH. do 2 f_equal. lia.
    + rewrite IH. do 2 f_equal.
Qed.

Lemma opportunities_loop_run (lines : list string) (b : bool) (n o : Z) :
  opportunities_loop lines b (metrics_dict n f t o)
  = (Return tt, metrics_dict n f t (o + count_opportunities lines b)).
Proof.
  revert b o. induction lines as [|l ls IH]; intros b o;
    cbn [opportunities_loop count_opportunities].
  - stmt_step. now rewrite Z.add_0_r.
  - destruct (is_opportunity_trigger l); [apply IH |].
    destruct b; [| apply IH].
    destruct (PyStr.startswith_any (PyStr.strip l) opportunity_markers).
    + stmt_step. rewrite iadd_opportunities_run, IH. do 2 f_equal. lia.
    + destruct (PyStr.startswith l "##"); [| apply IH].
      stmt_step. now rewrite Z.add_0_r.
Qed.

End ExtractRuns.

Lemma findings_loop_run (lines : list string) (b : bool) (n o : Z)
  (f : list string) (t : string) :
  findings_loop lines b (metrics_dict n f t o)
  = (Return tt, metrics_dict n (f ++ collect_findings lines b) t o).
Proof.
  revert b f. induction lines as [|l ls IH]; intros b f;
    cbn [findings_loop collect_findings].
  - stmt_step. now rewrite app_nil_r.
  - destruct (PyStr.contains "key findings" (PyStr.lower l)); [apply IH |].
    destruct b; [| apply IH].
    destruct (PyStr.startswith_any (PyStr.strip l) finding_markers).
    + stmt_step. rewrite append_findings_run, IH. now rewrite <- app_assoc.
    + destruct (PyStr.startswith l "##"); [| apply IH].
      stmt_step. now rewrite app_nil_r.
Qed.

(** On a [str] the body of the [try] runs to its end, and the three
    metrics are the pure readings of the lines. *)
Lemma extract_metrics_body_run (text : string) :
  let lines := PyStr.split PyStr.newline text in
  extract_metrics_body (VStr text) default_metrics
  = (Return tt,
     metrics_dict (count_competitors lines) (collect_findings lines false)
       "Medium" (count_opportunities lines false)).
Proof.
  intros lines. unfold extract_metrics_body, default_metrics, Stmt.split_lines.
  stmt_step. fold lines.
  rewrite competitor_loop_run, findings_loop_run, opportunities_loop_run.
  reflexivity.
Qed.

Lemma extract_key_metrics_run (text : string) :
  let lines := PyStr.split PyStr.newline text in
  extract_key_metrics (VStr text)
  = Return (metrics_dict (count_competitors lines) (collect_findings lines false)
              "Medium" (count_opportunities lines false)).
Proof.
  intros lines. unfold extract_key_metrics, Stmt.returns, Stmt.try_except.
  now rewrite extract_metrics_body_run.
Qed.

(** ** The loop of [format_report_for_display] *)

Section SectionLoop.

Lemma flush_none (content : list string) (d : dict) :
  flush None content d = (Return tt, d).
Proof. reflexivity. Qed.

Lemma flush_some (key : string) (content : list string) (d : dict) :
  PyStr.nonempty key = true ->
  flush (Some key) content d
  = (Return tt, <[key := VStr (PyStr.join nl content)]> d).
Proof. intros H. unfold flush. now rewrite H. Qed.

Lemma flush_returns (cs : option string) (content : list string) (d : dict) :
  exists d', flush cs content d = (Return tt, d').
Proof.
  destruct cs as [key|]; [| now exists d].
  unfold flush. destruct (PyStr.nonempty key); eexists; reflexivity.
Qed.

(** Lines before the first header are dropped. *)
Lemma section_loop_preamble (pre rest : list string) (cc : list string) (d : dict) :
  Forall plain_line pre ->
  section_loop (pre ++ rest) None cc d = section_loop rest None cc d.
Proof.
  induction 1 as [|l pre Hl _ IH]; [reflexivity |].
  cbn [app section_loop]. rewrite Hl. exact IH.
Qed.

(** Plain lines join the content of the open section. *)
Lemma section_loop_plain (body rest : list string) (key : string)
  (cc : list string) (d : dict) :
  PyStr.nonempty key = true ->
  Forall plain_line body ->
  section_loop (body ++ rest) (Some key) cc d
  = section_loop rest (Some key) (cc ++ body) d.
Proof.
  intros Hk H. revert cc. induction H as [|l body Hl _ IH]; intros cc.
  - now rewrite app_nil_r.
  - cbn [app section_loop truthy_opt]. rewrite Hl, Hk, IH.
    now rewrite <- app_assoc.
Qed.

(** A header closes the open section and opens its own. *)
Lemma section_loop_header (h : string) (rest : list string) (target : string)
  (cs : option string) (cc : list string) (d : dict) :
  detect_header (line_lower h) = Some target ->
  section_loop (h :: rest) cs cc d
  = section_loop rest (Some target) [h] (snd (flush cs cc d)).
Proof.
  intros Hh. cbn [section_loop]. rewrite Hh. stmt_step.
  destruct (flush_returns cs cc d) as [d' ->]. reflexivity.
Qed.

Lemma section_loop_end (cs : option string) (cc : list string) (d : dict) :
  section_loop [] cs cc d = (Return (cs, cc), d).
Proof. reflexivity. Qed.

Lemma section_loop_returns (lines : list string) (cs : option string)
  (cc : list string) (d : dict) :
  exists st d', section_loop lines cs cc d = (Return st, d').
Proof.
  revert cs cc d. induction lines as [|l ls IH]; intros cs cc d.
  - now exists (cs, cc), d.
  - cbn [section_loop]. destruct (detect_header (line_lower l)).
    + stmt_step. destruct (flush_returns cs cc d) as [d' ->]. apply IH.
    + destruct (truthy_opt cs); apply IH.
Qed.

(** A header line is not empty. *)
Lemma header_nonempty (h target : string) :
  detect_header (line_lower h) = Some target -> PyStr.nonempty h = true.
Proof. destruct h; [discriminate | reflexivity]. Qed.

Lemma join_nonempty (h : string) (body : list string) :
  PyStr.nonempty h = true -> PyStr.nonempty (PyStr.join nl (h :: body)) = true.
Proof.
  destruct h as [|c h]; [discriminate |]. intros _.
  unfold PyStr.join. destruct body; reflexivity.
Qed.

End SectionLoop.

(** ** Lines of a text *)

Section Lines.

Lemma lower_app (a b : string) :
  PyStr.lower (a +:+ b) = PyStr.lower a +:+ PyStr.lower b.
Proof. induction a as [|c a IH]; simpl; [reflexivity | now rewrite IH]. Qed.

Lemma lstrip_part (s : string) : exists a, s = a +:+ PyStr.lstrip s.
Proof.
  induction s as [|c s [a IH]]; [now exists "" |]. simpl.
  destruct (PyStr.isspace c); [| now exists ""].
  exists (String c a). simpl. now rewrite <- IH.
Qed.

Lemma rstrip_part (s : string) : exists b, s = PyStr.rstrip s +:+ b.
Proof.
  induction s as [|c s [b IH]]; [now exists "" |]. simpl.
  destruct (PyStr.rstrip s) as [|x r] eqn:E.
  - simpl in IH. destruct (PyStr.isspace c); [now exists (String c s) |].
    exists b. simpl. now rewrite <- IH.
  - exists b. simpl. simpl in IH. now rewrite <- IH.
Qed.

Lemma strip_part (s : string) : exists a b, s = a +:+ PyStr.strip s +:+ b.
Proof.
  destruct (rstrip_part s) as [b Hb]. unfold PyStr.strip.
  destruct (lstrip_part (PyStr.rstrip s)) as [a Ha].
  exists a, b. now rewrite <- append_assoc, <- Ha.
Qed.

Lemma contains_trans (n m h : string) :
  PyStr.contains n m = true -> PyStr.contains m h = true ->
  PyStr.contains n h = true.
Proof.
  rewrite !contains_spec. intros [p [q ->]] [p' [q' ->]].
  exists (p' +:+ p), (q +:+ q'). now rewrite !append_assoc.
Qed.

Lemma split_nonempty (s : string) : PyStr.split PyStr.newline s <> [].
Proof.
  induction s as [|c s IH]; simpl; [discriminate |].
  destruct (Ascii.eqb c PyStr.newline); [discriminate |].
  destruct (PyStr.split PyStr.newline s); [contradiction | discriminate].
Qed.

Lemma join_cons (x : string) (fields : list string) :
  fields <> [] ->
  PyStr.join nl (x :: fields) = x +:+ nl +:+ PyStr.join nl fields.
Proof. destruct fields; [contradiction | reflexivity]. Qed.

(** Joining the lines of a text gives the text back. *)
Lemma join_split (s : string) :
  PyStr.join nl (PyStr.split PyStr.newline s) = s.
Proof.
  induction s as [|c s IH]; [reflexivity |]. simpl.
  destruct (Ascii.eqb_spec c PyStr.newline) as [-> | _].
  - rewrite join_cons by apply split_nonempty. now rewrite IH.
  - pose proof (split_nonempty s) as Hne.
    destruct (PyStr.split PyStr.newline s) as [|x fields]; [contradiction |].
    destruct fields as [|y fields].
    + simpl in *. now rewrite IH.
    + rewrite join_cons by discriminate. rewrite join_cons in IH by discriminate.
      now rewrite <- IH.
Qed.

(** The lines from some line on are the end of the joined text. *)
Lemma join_app_tail (front : list string) (x : string) (back : list string) :
  exists p, PyStr.join nl (front ++ x :: back) = p +:+ PyStr.join nl (x :: back).
Proof.
  induction front as [|y front [p IH]]; [now exists "" |].
  exists (y +:+ nl +:+ p). cbn [app].
  rewrite join_cons by (destruct front; discriminate).
  now rewrite IH, !append_assoc.
Qed.

Lemma line_in_text (l : string) (fields : list string) :
  In l fields -> PyStr.contains l (PyStr.join nl fields) = true.
Proof.
  intros H. apply in_split in H as [front [back ->]].
  destruct (join_app_tail front l back) as [p ->].
  apply contains_spec. destruct back as [|y back].
  - exists p, "". now rewrite append_nil_r.
  - exists p, (nl +:+ PyStr.join nl (y :: back)).
    now rewrite join_cons by discriminate.
Qed.

(** A keyword seen by the classifier in a line occurs in the text. *)
Lemma keyword_in_line (keyword text l : string) :
  In l (PyStr.split PyStr.newline text) ->
  PyStr.contains keyword (line_lower l) = true ->
  PyStr.contains keyword (PyStr.lower text) = true.
Proof.
  intros Hin Hk. apply line_in_text in Hin. rewrite join_split in Hin.
  apply contains_spec in Hin as [p [q ->]].
  apply (contains_trans _ (line_lower l)); [exact Hk |].
  unfold line_lower. destruct (strip_part (PyStr.lower l)) as [a [b Hab]].
  apply contains_spec.
  exists (PyStr.lower p +:+ a), (b +:+ PyStr.lower q).
  rewrite !lower_app, Hab at 1. now rewrite !append_assoc.
Qed.

Lemma plain_without_keyword (l : string) :
  (forall keyword, In keyword heading_keywords ->
                   PyStr.contains keyword (line_lower l) = false) ->
  plain_line l.
Proof.
  intros H. unfold plain_line, detect_header, overview_test,
    detailed_analysis_test, competitor_matrix_test, recommendations_test.
  rewrite !H by (simpl; tauto). now rewrite andb_false_r.
Qed.

Lemma no_keyword_plain_lines (text : string) :
  has_heading_keyword text = false ->
  Forall plain_line (PyStr.split PyStr.newline text).
Proof.
  intros H. apply Forall_forall. intros l Hl. apply list_elem_of_In in Hl.
  apply plain_without_keyword. intros keyword Hk.
  destruct (PyStr.contains keyword (line_lower l)) eqn:E; [| reflexivity].
  apply (keyword_in_line keyword text l Hl) in E.
  assert (has_heading_keyword text = true) as Hc; [| congruence].
  apply existsb_exists. now exists keyword.
Qed.

End Lines.

(** ** Further facts about the loops *)

Section LoopFacts.

Lemma section_loop_plain_end (body : list string) (key : string)
  (cc : list string) (d : dict) :
  PyStr.nonempty key = true ->
  Forall plain_line body ->
  section_loop body (Some key) cc d = (Return (Some key, cc ++ body), d).
Proof.
  intros Hk H. rewrite <- (app_nil_r body) at 1.
  now rewrite section_loop_plain.
Qed.

(** On a [str] the body of the classifier's [try] runs to its end. *)
Lemma format_report_body_returns (text : string) :
  exists sections,
    format_report_body (VStr text) empty_sections = (Return tt, sections).
Proof.
  unfold format_report_body, Stmt.split_lines. stmt_step.
  destruct (section_loop_returns (PyStr.split PyStr.newline text) None []
              empty_sections) as [st [d ->]].
  destruct (flush_returns (fst st) (snd st) d) as [d' ->].
  unfold Stmt.get. destruct (negb (any_values d')); eexists; reflexivity.
Qed.

(** A line that starts with [#] starts with no list marker. *)
Lemma hash_no_marker (s : string) :
  PyStr.startswith s "#" = true ->
  PyStr.startswith_any s finding_markers = false /\
  PyStr.startswith_any s opportunity_markers = false.
Proof.
  destruct s as [|c s]; simpl; [discriminate |].
  rewrite andb_true_r, Ascii.eqb_eq. intros ->. split; vm_compute; reflexivity.
Qed.

Lemma heading_no_marker (line : string) :
  PyStr.startswith line "##" = true ->
  PyStr.startswith_any (PyStr.strip line) finding_markers = false /\
  PyStr.startswith_any (PyStr.strip line) opportunity_markers = false.
Proof.
  intros H. apply hash_no_marker, strip_hash.
  apply startswith_spec in H as [q ->]. apply startswith_spec.
  now exists (String "#" q).
Qed.

Lemma market_opportunities (line : string) :
  is_opportunity_trigger line
  = PyStr.contains "opportunities" (PyStr.lower line).
Proof.
  unfold is_opportunity_trigger.
  destruct (PyStr.contains "market opportunities" (PyStr.lower line)) eqn:E;
    [| reflexivity].
  symmetry. exact (contains_suffix_part "market " "opportunities" _ E).
Qed.

Lemma collect_findings_before (pre rest : list string) :
  Forall (fun l => PyStr.contains "key findings" (PyStr.lower l) = false) pre ->
  collect_findings (pre ++ rest) false = collect_findings rest false.
Proof.
  induction 1 as [|l pre Hl _ IH]; [reflexivity |].
  cbn [app collect_findings]. now rewrite Hl.
Qed.

Lemma collect_findings_trigger (l : string) (rest : list string) (b : bool) :
  PyStr.contains "key findings" (PyStr.lower l) = true ->
  collect_findings (l :: rest) b = collect_findings rest true.
Proof. intros H. cbn [collect_findings]. now rewrite H. Qed.

Lemma collect_findings_numbered (d : ascii) (t : string) (rest : list string) :
  In (String d ".") finding_markers ->
  PyStr.contains "key findings" (PyStr.lower (String d (String "." (String " " t)))) = false ->
  collect_findings (String d (String "." (String " " t)) :: rest) true
  = PyStr.strip t :: collect_findings rest true.
Proof.
  intros Hd Hk. cbn [collect_findings]. rewrite Hk.
  assert (Hs : PyStr.isspace d = false).
  { simpl in Hd.
    repeat (destruct Hd as [Hd | Hd]; [injection Hd as <-; reflexivity |]).
    contradiction. }
  assert (Hm : PyStr.startswith_any (PyStr.strip (String d (String "." (String " " t))))
                 finding_markers = true).
  { apply existsb_exists. exists (String d "."). split; [exact Hd |].
    now apply numbered_line_marker. }
  now rewrite Hm, numbered_line_text.
Qed.

Lemma collect_findings_heading (hdr : string) (rest : list string) :
  PyStr.contains "key findings" (PyStr.lower hdr) = false ->
  PyStr.startswith hdr "##" = true ->
  collect_findings (hdr :: rest) true = [].
Proof.
  intros Hk Hh. cbn [collect_findings]. rewrite Hk, Hh.
  now destruct (heading_no_marker hdr Hh) as [-> _].
Qed.

(** Once counting is on, a line that holds [opportunities] changes
    nothing, wherever it stands. *)
Lemma opportunities_loop_insert (line : string) (before after : list string)
  (d : dict) :
  PyStr.contains "opportunities" (PyStr.lower line) = true ->
  opportunities_loop (before ++ line :: after) true d
  = opportunities_loop (before ++ after) true d.
Proof.
  intros H. revert d. induction before as [|l ls IH]; intros d;
    cbn [app opportunities_loop].
  - now rewrite market_opportunities, H.
  - destruct (is_opportunity_trigger l); [apply IH |].
    destruct (PyStr.startswith_any (PyStr.strip l) opportunity_markers).
    + stmt_step. destruct (Stmt.iadd_item "opportunities" 1 d) as [[[]|e] d'];
        [apply IH | reflexivity].
    + destruct (PyStr.startswith l "##"); [reflexivity | apply IH].
Qed.

End LoopFacts.

(** * The claims *)

(** ** Section classifier *)

(** C1. For a report whose lines are a preamble, then one header of each of
    the four sections in order, each followed by lines that are no headers,
    [format_report_for_display] returns the dictionary in which every
    section holds its header line and the lines up to the next header,
    joined by newlines; the last section is the end of the text. *)
Theorem format_report_four_sections
  (text : string) (pre b1 b2 b3 b4 : list string) (h1 h2 h3 h4 : string) :
  PyStr.split PyStr.newline text
    = pre ++ h1 :: b1 ++ h2 :: b2 ++ h3 :: b3 ++ h4 :: b4 ->
  Forall plain_line pre -> Forall plain_line b1 -> Forall plain_line b2 ->
  Forall plain_line b3 -> Forall plain_line b4 ->
  detect_header (line_lower h1) = Some "overview" ->
  detect_header (line_lower h2) = Some "detailed_analysis" ->
  detect_header (line_lower h3) = Some "competitor_matrix" ->
  detect_header (line_lower h4) = Some "recommendations" ->
  format_report_for_display (VStr text)
  = Return (sections_dict (PyStr.join nl (h1 :: b1)) (PyStr.join nl (h2 :: b2))
              (PyStr.join nl (h3 :: b3)) (PyStr.join nl (h4 :: b4)))
  /\ exists front, text = front +:+ PyStr.join nl (h4 :: b4).
Proof.
  intros Hs Hp H1 H2 H3 H4 E1 E2 E3 E4. split.
  - unfold format_report_for_display, Stmt.returns, Stmt.try_except,
      format_report_body, Stmt.split_lines.
    stmt_step. rewrite Hs.
    rewrite section_loop_preamble by assumption.
    rewrite (section_loop_header h1 _ "overview") by assumption.
    rewrite flush_none. cbn [snd].
    rewrite section_loop_plain by (reflexivity || assumption).
    rewrite (section_loop_header h2 _ "detailed_analysis") by assumption.
    rewrite flush_some by reflexivity. cbn [snd].
    rewrite section_loop_plain by (reflexivity || assumption).
    rewrite (section_loop_header h3 _ "competitor_matrix") by assumption.
    rewrite flush_some by reflexivity. cbn [snd].
    rewrite section_loop_plain by (reflexivity || assumption).
    rewrite (section_loop_header h4 _ "recommendations") by assumption.
    rewrite flush_some by reflexivity. cbn [snd].
    rewrite section_loop_plain_end by (reflexivity || assumption).
    cbn [fst snd]. rewrite flush_some by reflexivity.
    unfold Stmt.get, empty_sections. cbn [app].
    rewrite sections_set_overview, sections_set_detailed, sections_set_matrix,
      sections_set_recommendations.
    rewrite (any_values_true _ "overview" _ (sections_get_overview _ _ _ _)).
    + reflexivity.
    + cbn [truthy]. apply join_nonempty. exact (header_nonempty _ _ E1).
  - pose proof (join_split text) as J. rewrite Hs in J.
    replace (pre ++ h1 :: b1 ++ h2 :: b2 ++ h3 :: b3 ++ h4 :: b4)
      with ((pre ++ h1 :: b1 ++ h2 :: b2 ++ h3 :: b3) ++ h4 :: b4) in J.
    + destruct (join_app_tail (pre ++ h1 :: b1 ++ h2 :: b2 ++ h3 :: b3) h4 b4)
        as [front Hfront].
      exists front. now rewrite <- J.
    + repeat (rewrite <- app_assoc; cbn [app]). reflexivity.
Qed.

Lemma format_report_four_sections_witness :
  format_report_for_display (VStr sample_report)
  = Return (sections_dict
              (PyStr.join nl ["# Executive Summary"; "We lead the market."])
              (PyStr.join nl ["## Detailed Competitor Analysis"; "Rival one is strong."])
              (PyStr.join nl ["## Competitive Comparison Matrix"; "Price and reach."])
              (PyStr.join nl ["## Strategic Recommendations"; "Invest in support.";
                              "Hire two engineers."]))
  /\ exists front,
       sample_report
       = front +:+ PyStr.join nl ["## Strategic Recommendations";
                                  "Invest in support."; "Hire two engineers."].
Proof.
  apply (format_report_four_sections sample_report
           ["Prepared for the board"] ["We lead the market."]
           ["Rival one is strong."] ["Price and reach."]
           ["Invest in support."; "Hire two engineers."]);
    try (vm_compute; reflexivity);
    repeat (constructor; [vm_compute; reflexivity |]); constructor.
Defined.

(** C2. On every [str], [format_report_for_display] and
    [extract_key_metrics] return a dictionary; no exception reaches the
    caller, and none is raised inside the [try] either. *)
Theorem classify_and_extract_never_raise (text : string) :
  (exists sections,
     format_report_body (VStr text) empty_sections = (Return tt, sections) /\
     format_report_for_display (VStr text) = Return sections) /\
  (exists metrics,
     extract_metrics_body (VStr text) default_metrics = (Return tt, metrics) /\
     extract_key_metrics (VStr text) = Return metrics).
Proof.
  split.
  - destruct (format_report_body_returns text) as [sections H].
    exists sections. split; [exact H |].
    unfold format_report_for_display, Stmt.returns, Stmt.try_except.
    now rewrite H.
  - eexists. split; [apply extract_metrics_body_run |].
    apply extract_key_metrics_run.
Qed.

(** The empty report and a report with unbalanced markup. *)
Example empty_report_returns :
  format_report_for_display (VStr "") = Return (sections_dict "" "" "" "") /\
  extract_key_metrics (VStr "") = Return default_metrics.
Proof. split; vm_compute; reflexivity. Qed.

Example unbalanced_markup_returns :
  format_report_for_display (VStr "**Key Findings* `x")
  = Return (sections_dict "**Key Findings* `x" "" "" "") /\
  extract_key_metrics (VStr "**Key Findings* `x") = Return default_metrics.
Proof. split; vm_compute; reflexivity. Qed.

(** C3. For a text that holds none of the heading keywords, in any case of
    letters, [format_report_for_display] returns the whole text under
    [overview] and the empty string under the three other keys. *)
Theorem format_report_without_keywords (text : string) :
  has_heading_keyword text = false ->
  format_report_for_display (VStr text) = Return (sections_dict text "" "" "").
Proof.
  intros H. apply no_keyword_plain_lines in H.
  unfold format_report_for_display, Stmt.returns, Stmt.try_except,
    format_report_body, Stmt.split_lines.
  stmt_step.
  rewrite <- (app_nil_r (PyStr.split PyStr.newline text)).
  rewrite section_loop_preamble by assumption.
  rewrite section_loop_end. cbn [fst snd]. rewrite flush_none.
  unfold Stmt.get. rewrite any_values_empty_sections. cbn [negb].
  unfold Stmt.setitem, empty_sections. now rewrite sections_set_overview.
Qed.

Lemma format_report_without_keywords_witness :
  format_report_for_display (VStr ("Notes on pricing" +:+ nl +:+ "Nothing else."))
  = Return (sections_dict ("Notes on pricing" +:+ nl +:+ "Nothing else.") "" "" "").
Proof.
  apply (format_report_without_keywords
           ("Notes on pricing" +:+ nl +:+ "Nothing else.")).
  vm_compute. reflexivity.
Defined.

(** C4. The fourth test of the classifier is the test for
    [recommendation] alone: the chain answers [recommendations] exactly when
    the three earlier tests fail and the line holds [recommendation], and a
    line with [strategic] but without [recommendation] never passes it. *)
Theorem recommendations_test_is_containment (lowered : string) :
  recommendations_test lowered = PyStr.contains "recommendation" lowered /\
  (detect_header lowered = Some "recommendations" <->
   overview_test lowered = false /\
   detailed_analysis_test lowered = false /\
   competitor_matrix_test lowered = false /\
   PyStr.contains "recommendation" lowered = true) /\
  PyStr.contains "strategic" lowered
  && negb (PyStr.contains "recommendation" lowered)
  && recommendations_test lowered = false.
Proof.
  unfold detect_header, recommendations_test.
  destruct (PyStr.contains "recommendation" lowered),
    (PyStr.contains "strategic" lowered),
    (overview_test lowered), (detailed_analysis_test lowered),
    (competitor_matrix_test lowered); cbn;
    (split; [reflexivity | split; [| reflexivity]]);
    split; try discriminate; try tauto;
    intros (? & ? & ? & ?); discriminate.
Qed.

(** ** Metrics extractor *)

(** C5. Whenever the body of the [try] of [extract_key_metrics] raises,
    the function returns the dictionary it started from: zero competitors,
    no findings, zero opportunities and the threat level [Medium]. *)
Theorem extract_metrics_default_on_exception
  (report_content : value) (e : exn) (d : dict) :
  extract_metrics_body report_content default_metrics = (Raise e, d) ->
  extract_key_metrics report_content = Return default_metrics /\
  default_metrics = metrics_dict 0 [] "Medium" 0.
Proof.
  intros H. split; [| reflexivity].
  destruct report_content as [| z | text | items].
  - reflexivity.
  - reflexivity.
  - rewrite extract_metrics_body_run in H. discriminate.
  - reflexivity.
Qed.

Lemma extract_metrics_default_on_exception_witness :
  extract_key_metrics VNone = Return default_metrics /\
  default_metrics = metrics_dict 0 [] "Medium" 0.
Proof.
  apply (extract_metrics_default_on_exception VNone AttributeError default_metrics).
  reflexivity.
Defined.

(** C6, as the source has it. Take a text whose first line with
    [key findings] is followed by the five lines [1. t1] to [5. t5] and then
    by a line that starts with [##], none of these six lines holding
    [key findings] itself, in any case of letters. The findings returned are
    exactly the five texts, stripped: the trigger line and what follows the
    heading are not collected. *)
Theorem key_findings_five_numbered_lines
  (text : string) (pre post : list string) (trigger hdr t1 t2 t3 t4 t5 : string) :
  PyStr.split PyStr.newline text
    = pre ++ trigger :: ("1. " +:+ t1) :: ("2. " +:+ t2) :: ("3. " +:+ t3)
          :: ("4. " +:+ t4) :: ("5. " +:+ t5) :: hdr :: post ->
  Forall (fun l => PyStr.contains "key findings" (PyStr.lower l) = false) pre ->
  PyStr.contains "key findings" (PyStr.lower trigger) = true ->
  Forall (fun l => PyStr.contains "key findings" (PyStr.lower l) = false)
    ["1. " +:+ t1; "2. " +:+ t2; "3. " +:+ t3; "4. " +:+ t4; "5. " +:+ t5; hdr] ->
  PyStr.startswith hdr "##" = true ->
  exists num_competitors opportunities,
    extract_key_metrics (VStr text)
    = Return (metrics_dict num_competitors
                [PyStr.strip t1; PyStr.strip t2; PyStr.strip t3; PyStr.strip t4;
                 PyStr.strip t5]
                "Medium" opportunities).
Proof.
  intros Hs Hpre Htrigger Hlines Hhdr.
  rewrite extract_key_metrics_run, Hs. do 2 eexists. do 2 f_equal.
  rewrite collect_findings_before by assumption.
  rewrite collect_findings_trigger by assumption.
  inversion_clear Hlines as [|? ? K1 Hl]. inversion_clear Hl as [|? ? K2 Hl'].
  inversion_clear Hl' as [|? ? K3 Hl]. inversion_clear Hl as [|? ? K4 Hl'].
  inversion_clear Hl' as [|? ? K5 Hl]. inversion_clear Hl as [|? ? K6 _].
  cbn [String.append] in *.
  rewrite !collect_findings_numbered by (assumption || (simpl; tauto)).
  now rewrite collect_findings_heading.
Qed.

Lemma key_findings_five_numbered_lines_witness :
  exists num_competitors opportunities,
    extract_key_metrics (VStr sample_findings)
    = Return (metrics_dict num_competitors
                [PyStr.strip "Prices fell"; PyStr.strip " Two rivals merged ";
                 PyStr.strip "Churn is flat"; PyStr.strip "Support is slow";
                 PyStr.strip "Margins hold"]
                "Medium" opportunities).
Proof.
  apply (key_findings_five_numbered_lines sample_findings
           ["# Report"] ["1. Not a finding"] "## Key Findings" "## Next steps");
    try (vm_compute; reflexivity);
    repeat (constructor; [vm_compute; reflexivity |]); constructor.
Defined.

(** C6 as stated fails: a numbered line that holds [key findings] is taken
    for a trigger line and not collected, and a [##] line that holds it does
    not end the collection. *)
Lemma key_findings_trigger_lines_counterexample :
  (PyStr.split PyStr.newline dropped_finding_report
   = ["## Key Findings"; "1. " +:+ "The key findings are final";
      "2. " +:+ "Prices fell"; "3. " +:+ "Churn is flat";
      "4. " +:+ "Support is slow"; "5. " +:+ "Margins hold"; "## Next steps"] /\
   extract_key_metrics (VStr dropped_finding_report)
   = Return (metrics_dict 0
               ["Prices fell"; "Churn is flat"; "Support is slow"; "Margins hold"]
               "Medium" 0) /\
   ~ (exists num_competitors opportunities,
        extract_key_metrics (VStr dropped_finding_report)
        = Return (metrics_dict num_competitors
                    [PyStr.strip "The key findings are final";
                     PyStr.strip "Prices fell"; PyStr.strip "Churn is flat";
                     PyStr.strip "Support is slow"; PyStr.strip "Margins hold"]
                    "Medium" opportunities))) /\
  (PyStr.split PyStr.newline unclosed_findings_report
   = ["## Key Findings"; "1. " +:+ "Rivals merged"; "2. " +:+ "Prices fell";
      "3. " +:+ "Churn is flat"; "4. " +:+ "Support is slow";
      "5. " +:+ "Margins hold"; "## Beyond the key findings";
      "1. Not a finding"] /\
   extract_key_metrics (VStr unclosed_findings_report)
   = Return (metrics_dict 0
               ["Rivals merged"; "Prices fell"; "Churn is flat";
                "Support is slow"; "Margins hold"; "Not a finding"]
               "Medium" 0) /\
   ~ (exists num_competitors opportunities,
        extract_key_metrics (VStr unclosed_findings_report)
        = Return (metrics_dict num_competitors
                    [PyStr.strip "Rivals merged"; PyStr.strip "Prices fell";
                     PyStr.strip "Churn is flat"; PyStr.strip "Support is slow";
                     PyStr.strip "Margins hold"]
                    "Medium" opportunities))).
Proof.
  assert (E1 : extract_key_metrics (VStr dropped_finding_report)
               = Return (metrics_dict 0
                           ["Prices fell"; "Churn is flat"; "Support is slow";
                            "Margins hold"] "Medium" 0))
    by (vm_compute; reflexivity).
  assert (E2 : extract_key_metrics (VStr unclosed_findings_report)
               = Return (metrics_dict 0
                           ["Rivals merged"; "Prices fell"; "Churn is flat";
                            "Support is slow"; "Margins hold"; "Not a finding"]
                           "Medium" 0))
    by (vm_compute; reflexivity).
  split; (split; [vm_compute; reflexivity | split; [assumption |]]).
  - intros (n & o & H). rewrite E1 in H.
    apply (f_equal key_findings_of) in H. cbv beta iota delta [key_findings_of] in H.
    rewrite !metrics_get_findings in H. discriminate.
  - intros (n & o & H). rewrite E2 in H.
    apply (f_equal key_findings_of) in H. cbv beta iota delta [key_findings_of] in H.
    rewrite !metrics_get_findings in H. discriminate.
Qed.

(** C10. With the counting of opportunities on, a line that holds
    [opportunities] is passed over whatever it starts with; the loop ends
    only at a line that starts with [##] and does not hold the word; any
    other line is counted if it starts with a marker, and the loop goes on. *)
Theorem opportunities_line_skipped (line : string) (rest : list string) (d : dict) :
  opportunities_loop (line :: rest) true d
  = if PyStr.contains "opportunities" (PyStr.lower line)
    then opportunities_loop rest true d
    else if PyStr.startswith line "##"
    then (Return tt, d)
    else if PyStr.startswith_any (PyStr.strip line) opportunity_markers
    then (Stmt.iadd_item "opportunities" 1;; opportunities_loop rest true) d
    else opportunities_loop rest true d.
Proof.
  cbn [opportunities_loop]. rewrite market_opportunities.
  destruct (PyStr.contains "opportunities" (PyStr.lower line)); [reflexivity |].
  destruct (PyStr.startswith line "##") eqn:Hh.
  - now destruct (heading_no_marker line Hh) as [_ ->].
  - now destruct (PyStr.startswith_any (PyStr.strip line) opportunity_markers).
Qed.

(** ** Renderer *)

(** C7. On [**bold** and *italic*] the bold pattern takes [bold] and leaves
    the single asterisks; the italic pattern then takes [italic]. *)
Theorem clean_markdown_bold_before_italic :
  let line := "**bold** and *italic*" in
  Re.match_here PDFReportGenerator.bold_pattern line false ""
  = Some ("bold", " and *italic*") /\
  Re.sub PDFReportGenerator.bold_pattern (Re.Template "<b>" "</b>") line
  = "<b>bold</b> and *italic*" /\
  Re.match_here PDFReportGenerator.italic_pattern "*italic*" false ""
  = Some ("italic", "") /\
  PDFReportGenerator._clean_markdown line = "<b>bold</b> and <i>italic</i>".
Proof. vm_compute. repeat split. Qed.

(** The order matters: italic first would cut through the bold markup. *)
Example italic_before_bold_is_malformed :
  Re.sub PDFReportGenerator.italic_pattern (Re.Template "<i>" "</i>")
    "**bold** and *italic*"
  = "<i>*bold</i><i> and </i>italic*".
Proof. vm_compute. reflexivity. Qed.

(** Unfold the sequencing of calls that may raise. *)
Ltac run_outcome :=
  unfold mbind, outcome_mbind, outcome_bind, mret, outcome_ret.

(** The title page is built when its four paragraphs are; otherwise the
    first paragraph that is refused raises. *)
Lemma create_title_page_cases
  (accepts : PDFReportGenerator.style -> string -> bool)
  (me : PDFReportGenerator.self) (now : datetime) :
  PDFReportGenerator._create_title_page accepts me now
  = if accepts PDFReportGenerator.CustomTitle "COMPETITOR ANALYSIS REPORT"
       && accepts PDFReportGenerator.CustomHeading2
            ("<b>" +:+ PDFReportGenerator.company_name me +:+ "</b>")
       && accepts PDFReportGenerator.CustomBody
            ("Industry: " +:+ PDFReportGenerator.industry me)
       && accepts PDFReportGenerator.CustomBody
            ("Report Date: " +:+ strftime_long now)
    then Return
           [ PDFReportGenerator.Para "COMPETITOR ANALYSIS REPORT"
               PDFReportGenerator.CustomTitle;
             PDFReportGenerator.Spacer 1 30;
             PDFReportGenerator.Para
               ("<b>" +:+ PDFReportGenerator.company_name me +:+ "</b>")
               PDFReportGenerator.CustomHeading2;
             PDFReportGenerator.Spacer 1 20;
             PDFReportGenerator.Para
               ("Industry: " +:+ PDFReportGenerator.industry me)
               PDFReportGenerator.CustomBody;
             PDFReportGenerator.Spacer 1 10;
             PDFReportGenerator.Para ("Report Date: " +:+ strftime_long now)
               PDFReportGenerator.CustomBody;
             PDFReportGenerator.PageBreak ]
    else Raise ValueError.
Proof.
  unfold PDFReportGenerator._create_title_page, PDFReportGenerator.Paragraph.
  destruct (accepts PDFReportGenerator.CustomTitle _); [| reflexivity].
  destruct (accepts PDFReportGenerator.CustomHeading2 _); [| reflexivity].
  destruct (accepts PDFReportGenerator.CustomBody
              ("Industry: " +:+ PDFReportGenerator.industry me)); [| reflexivity].
  destruct (accepts PDFReportGenerator.CustomBody
              ("Report Date: " +:+ strftime_long now)); reflexivity.
Qed.

(** C8. The list handed to the layout engine is the title page followed by
    the blocks of the report body: the centered title, the company name,
    the industry, the date and a page break come first, whatever the
    report, the company name and the industry are. The title page is also
    built first: when ReportLab refuses one of its four texts,
    [generate_pdf] raises before it reads the report, and when it refuses
    a text of the body, no list is handed over either. *)
Theorem generate_pdf_title_page_first
  (accepts : PDFReportGenerator.style -> string -> bool)
  (me : PDFReportGenerator.self) (now : datetime) (report_content : string) :
  let title_page :=
    [ PDFReportGenerator.Para "COMPETITOR ANALYSIS REPORT"
        PDFReportGenerator.CustomTitle;
      PDFReportGenerator.Spacer 1 30;
      PDFReportGenerator.Para
        ("<b>" +:+ PDFReportGenerator.company_name me +:+ "</b>")
        PDFReportGenerator.CustomHeading2;
      PDFReportGenerator.Spacer 1 20;
      PDFReportGenerator.Para
        ("Industry: " +:+ PDFReportGenerator.industry me)
        PDFReportGenerator.CustomBody;
      PDFReportGenerator.Spacer 1 10;
      PDFReportGenerator.Para ("Report Date: " +:+ strftime_long now)
        PDFReportGenerator.CustomBody;
      PDFReportGenerator.PageBreak ] in
  PDFReportGenerator.generate_pdf accepts me now report_content
  = (if accepts PDFReportGenerator.CustomTitle "COMPETITOR ANALYSIS REPORT"
        && accepts PDFReportGenerator.CustomHeading2
             ("<b>" +:+ PDFReportGenerator.company_name me +:+ "</b>")
        && accepts PDFReportGenerator.CustomBody
             ("Industry: " +:+ PDFReportGenerator.industry me)
        && accepts PDFReportGenerator.CustomBody
             ("Report Date: " +:+ strftime_long now)
     then match PDFReportGenerator._parse_report_content accepts report_content with
          | Return body => Return (title_page ++ body)
          | Raise e => Raise e
          end
     else Raise ValueError)
  /\ (forall elements,
        PDFReportGenerator.generate_pdf accepts me now report_content
        = Return elements ->
        firstn 8 elements = title_page
        /\ PDFReportGenerator._parse_report_content accepts report_content
           = Return (skipn 8 elements))
  /\ PDFReportGenerator.style_alignment PDFReportGenerator.CustomTitle
     = Some PDFReportGenerator.TA_CENTER
  /\ PyStr.contains (PDFReportGenerator.company_name me)
       ("<b>" +:+ PDFReportGenerator.company_name me +:+ "</b>") = true
  /\ PyStr.contains (PDFReportGenerator.industry me)
       ("Industry: " +:+ PDFReportGenerator.industry me) = true.
Proof.
  intros title_page.
  assert (Hrun :
    PDFReportGenerator.generate_pdf accepts me now report_content
    = (if accepts PDFReportGenerator.CustomTitle "COMPETITOR ANALYSIS REPORT"
          && accepts PDFReportGenerator.CustomHeading2
               ("<b>" +:+ PDFReportGenerator.company_name me +:+ "</b>")
          && accepts PDFReportGenerator.CustomBody
               ("Industry: " +:+ PDFReportGenerator.industry me)
          && accepts PDFReportGenerator.CustomBody
               ("Report Date: " +:+ strftime_long now)
       then match PDFReportGenerator._parse_report_content accepts report_content with
            | Return body => Return (title_page ++ body)
            | Raise e => Raise e
            end
       else Raise ValueError)).
  { unfold PDFReportGenerator.generate_pdf. rewrite create_title_page_cases.
    destruct (_ && _); run_outcome; [| reflexivity].
    now destruct (PDFReportGenerator._parse_report_content accepts report_content). }
  split; [exact Hrun |]. split.
  - intros elements He. rewrite Hrun in He.
    destruct (_ && _); [| discriminate].
    destruct (PDFReportGenerator._parse_report_content accepts report_content)
      as [body|e]; [| discriminate].
    injection He as <-. now split.
  - repeat split.
    + apply contains_inside.
    + apply contains_spec. exists "Industry: ", "". now rewrite append_nil_r.
Qed.

Lemma generate_pdf_title_page_first_witness :
  PDFReportGenerator.generate_pdf (fun _ _ => true)
    {| PDFReportGenerator.company_name := "Acme";
       PDFReportGenerator.industry := "SaaS" |}
    {| year := 2024; month := 5; day := 1 |}
    "## Overview"
  = Return
      [ PDFReportGenerator.Para "COMPETITOR ANALYSIS REPORT"
          PDFReportGenerator.CustomTitle;
        PDFReportGenerator.Spacer 1 30;
        PDFReportGenerator.Para "<b>Acme</b>" PDFReportGenerator.CustomHeading2;
        PDFReportGenerator.Spacer 1 20;
        PDFReportGenerator.Para "Industry: SaaS" PDFReportGenerator.CustomBody;
        PDFReportGenerator.Spacer 1 10;
        PDFReportGenerator.Para "Report Date: May 01, 2024"
          PDFReportGenerator.CustomBody;
        PDFReportGenerator.PageBreak;
        PDFReportGenerator.Spacer 1 15;
        PDFReportGenerator.Para "Overview" PDFReportGenerator.CustomHeading2;
        PDFReportGenerator.Spacer 1 10 ].
Proof.
  exact (proj1 (generate_pdf_title_page_first (fun _ _ => true)
    {| PDFReportGenerator.company_name := "Acme";
       PDFReportGenerator.industry := "SaaS" |}
    {| year := 2024; month := 5; day := 1 |}
    "## Overview")).
Defined.

(** With an acceptor that wants tags closed in order, a company name that
    opens a tag stops the title page, and with it the whole document. *)
Example company_name_opens_a_tag :
  PDFReportGenerator.generate_pdf nested_tags
    {| PDFReportGenerator.company_name := "A<B Corp";
       PDFReportGenerator.industry := "SaaS" |}
    {| year := 2024; month := 5; day := 1 |}
    "## Overview"
  = Raise ValueError.
Proof. vm_compute. reflexivity. Qed.

(** Bold inside italic written with three asterisks gives tags that
    cross, which such an acceptor refuses. *)
Example crossed_tags_raise :
  PDFReportGenerator._clean_markdown "***a***" = "<b><i>a</b></i>"
  /\ PDFReportGenerator._parse_report_content nested_tags "***a***"
     = Raise ValueError
  /\ PDFReportGenerator._parse_report_content nested_tags "**a** and *b*"
     = Return [PDFReportGenerator.Para "<b>a</b> and <i>b</i>"
                 PDFReportGenerator.CustomBody].
Proof. vm_compute. repeat split. Qed.

(** ** Export file name *)

(** C9. [generate_filename] returns
    [competitor_analysis_<name>_<YYYYMMDD>.<extension>], where the name is
    the company name without the characters that are neither alphanumeric,
    underscore, white space nor hyphen, and with every run of hyphens and
    white space turned into one underscore; on 2024-05-01 it gives the two
    file names of the specification. *)
Theorem generate_filename_sanitized
  (company_name extension : string) (now : datetime) :
  generate_filename company_name extension now
  = "competitor_analysis_" +:+ spec_sanitize company_name +:+ "_"
    +:+ four_digits (year now) +:+ two_digits (month now)
    +:+ two_digits (day now) +:+ "." +:+ extension
  /\ generate_filename "Acme, Inc." "pdf" {| year := 2024; month := 5; day := 1 |}
     = "competitor_analysis_Acme_Inc_20240501.pdf"
  /\ generate_filename "" "pdf" {| year := 2024; month := 5; day := 1 |}
     = "competitor_analysis__20240501.pdf".
Proof.
  split; [| split; vm_compute; reflexivity].
  unfold generate_filename, strftime_stamp. rewrite sanitize_refines.
  now rewrite !append_assoc.
Qed.
(** * Further properties of the code *)

(** ** The classifier on any report *)

Section ClassifierShape.

Lemma detect_header_key (lowered target : string) :
  detect_header lowered = Some target -> In target section_keys.
Proof.
  unfold detect_header.
  destruct (overview_test lowered); [intros [= <-]; simpl; tauto |].
  destruct (detailed_analysis_test lowered); [intros [= <-]; simpl; tauto |].
  destruct (competitor_matrix_test lowered); [intros [= <-]; simpl; tauto |].
  destruct (recommendations_test lowered); [intros [= <-]; simpl; tauto |].
  discriminate.
Qed.

Lemma section_key_nonempty (key : string) :
  In key section_keys -> PyStr.nonempty key = true.
Proof.
  simpl. intros [<- | [<- | [<- | [<- | []]]]]; reflexivity.
Qed.

Lemma sections_insert (key x : string) (d : dict) :
  In key section_keys -> is_sections d -> is_sections (<[key := VStr x]> d).
Proof.
  intros Hk (o & a & c & r & ->). simpl in Hk.
  destruct Hk as [<- | [<- | [<- | [<- | []]]]].
  - rewrite sections_set_overview. now exists x, a, c, r.
  - rewrite sections_set_detailed. now exists o, x, c, r.
  - rewrite sections_set_matrix. now exists o, a, x, r.
  - rewrite sections_set_recommendations. now exists o, a, c, x.
Qed.

Lemma flush_sections (cs : option string) (cc : list string) (d : dict) :
  section_state cs -> is_sections d ->
  exists d', flush cs cc d = (Return tt, d') /\ is_sections d'.
Proof.
  intros Hs Hd. destruct cs as [key|]; [| now exists d].
  rewrite flush_some by now apply section_key_nonempty.
  eexists. split; [reflexivity |]. now apply sections_insert.
Qed.

(** The loop keeps the shape of the dictionary and of its two variables;
    it leaves the dictionary alone until the first header, and a section
    once opened is never closed without another one open. *)
Lemma section_loop_shape (lines : list string) (cs : option string)
  (cc : list string) (d : dict) :
  section_state cs -> content_state cs cc -> is_sections d ->
  exists cs' cc' d',
    section_loop lines cs cc d = (Return (cs', cc'), d') /\
    section_state cs' /\ content_state cs' cc' /\ is_sections d' /\
    (cs' = None -> d' = d /\ cs = None).
Proof.
  revert cs cc d. induction lines as [|l ls IH]; intros cs cc d Hs Hc Hd.
  - exists cs, cc, d. do 4 (split; [auto; fail |]). intros ->. now split.
  - cbn [section_loop]. destruct (detect_header (line_lower l)) as [target|] eqn:E.
    + stmt_step. destruct (flush_sections cs cc d Hs Hd) as (d1 & -> & Hd1).
      destruct (IH (Some target) [l] d1) as (cs' & cc' & d' & -> & Hs' & Hc' & Hd' & Hn).
      * exact (detect_header_key _ _ E).
      * exists l, []. split; [reflexivity |]. exact (header_nonempty _ _ E).
      * exact Hd1.
      * exists cs', cc', d'. do 4 (split; [auto; fail |]).
        intros Hcs. destruct (Hn Hcs) as [_ Habs]. discriminate.
    + destruct cs as [key|].
      * cbn [truthy_opt]. rewrite (section_key_nonempty key Hs).
        destruct Hc as (h & b & -> & Hh).
        destruct (IH (Some key) ((h :: b) ++ [l]) d) as
          (cs' & cc' & d' & -> & Hs' & Hc' & Hd' & Hn); auto.
        { exists h, (b ++ [l]). split; [reflexivity | exact Hh]. }
        exists cs', cc', d'. do 4 (split; [auto; fail |]).
        intros Hcs. destruct (Hn Hcs) as [_ Habs]. discriminate.
      * cbn [truthy_opt]. apply IH; auto.
Qed.

End ClassifierShape.

Section ClassifierFacts.

Lemma format_report_lines (text : string) :
  format_report_for_display (VStr text)
  = classify_lines (VStr text) (PyStr.split PyStr.newline text).
Proof. reflexivity. Qed.

Lemma any_values_insert (key x : string) (d : dict) :
  PyStr.nonempty x = true -> any_values (<[key := VStr x]> d) = true.
Proof.
  intros H. apply (any_values_true _ key (VStr x)); [| exact H].
  apply lookup_insert_eq.
Qed.

(** With a section open at the end of the loop, the result is the
    dictionary of the loop with the last section written, whatever
    [report_content] is. *)
Lemma classify_lines_open (v : value) (lines : list string) (key : string)
  (cc : list string) (d : dict) :
  section_loop lines None [] empty_sections = (Return (Some key, cc), d) ->
  section_state (Some key) -> content_state (Some key) cc ->
  classify_lines v lines = Return (<[key := VStr (PyStr.join nl cc)]> d).
Proof.
  intros Hrun Hk (h & b & -> & Hh).
  unfold classify_lines, Stmt.returns, Stmt.try_except. stmt_step.
  rewrite Hrun. cbn [fst snd].
  rewrite flush_some by now apply section_key_nonempty.
  unfold Stmt.get. rewrite any_values_insert by now apply join_nonempty.
  reflexivity.
Qed.

(** With no header in the lines, the result is the fallback. *)
Lemma classify_lines_closed (v : value) (lines : list string) (cc : list string)
  (d : dict) :
  section_loop lines None [] empty_sections = (Return (None, cc), d) ->
  d = empty_sections ->
  classify_lines v lines = Return (<["overview" := v]> empty_sections).
Proof.
  intros Hrun ->.
  unfold classify_lines, Stmt.returns, Stmt.try_except. stmt_step.
  rewrite Hrun. cbn [fst snd]. rewrite flush_none.
  unfold Stmt.get. now rewrite any_values_empty_sections.
Qed.

Lemma empty_sections_shape : is_sections empty_sections.
Proof. now exists "", "", "", "". Qed.

(** The two ways the function ends on the lines of a text. *)
Lemma classify_lines_cases (v : value) (lines : list string) :
  (exists key cc d,
     section_loop lines None [] empty_sections = (Return (Some key, cc), d) /\
     In key section_keys /\ content_state (Some key) cc /\ is_sections d /\
     classify_lines v lines = Return (<[key := VStr (PyStr.join nl cc)]> d)) \/
  (exists cc,
     section_loop lines None [] empty_sections = (Return (None, cc), empty_sections) /\
     classify_lines v lines = Return (<["overview" := v]> empty_sections)).
Proof.
  destruct (section_loop_shape lines None [] empty_sections I eq_refl
              empty_sections_shape)
    as (cs & cc & d & Hrun & Hs & Hc & Hd & Hn).
  destruct cs as [key|].
  - left. exists key, cc, d. repeat split; auto.
    now apply classify_lines_open.
  - right. destruct (Hn eq_refl) as [-> _]. exists cc. split; [exact Hrun |].
    now apply (classify_lines_closed v lines cc empty_sections).
Qed.

End ClassifierFacts.

(** X1. On every [str] the result holds exactly the four section keys, each
    with a [str]: the caller's [sections['overview']] and the three other
    subscripts never fail. *)
Theorem format_report_four_keys (text : string) :
  exists o a c r,
    format_report_for_display (VStr text) = Return (sections_dict o a c r).
Proof.
  rewrite format_report_lines.
  destruct (classify_lines_cases (VStr text) (PyStr.split PyStr.newline text))
    as [(key & cc & d & _ & Hk & _ & Hd & ->) | (cc & _ & ->)].
  - apply (sections_insert key (PyStr.join nl cc) d Hk) in Hd.
    destruct Hd as (o & a & c & r & ->). now exists o, a, c, r.
  - exists text, "", "", "". unfold empty_sections.
    now rewrite sections_set_overview.
Qed.

(** X2. On a value that is no [str] the split raises, and the handler
    stores the value itself under [overview]; the three other sections stay
    empty and nothing reaches the caller. *)
Theorem format_report_not_a_string (report_content : value) :
  (forall text, report_content <> VStr text) ->
  format_report_for_display report_content
  = Return (<["overview" := report_content]> empty_sections).
Proof.
  intros H. destruct report_content as [| z | text | items];
    [reflexivity | reflexivity | | reflexivity].
  now destruct (H text).
Qed.

Lemma format_report_not_a_string_witness :
  format_report_for_display VNone = Return (<["overview" := VNone]> empty_sections).
Proof. apply (format_report_not_a_string VNone). discriminate. Defined.

(** X3. The sections returned for a [str] are all empty only for the empty
    report: a report with any text shows something in at least one tab. *)
Theorem format_report_shows_something (text : string) :
  exists sections,
    format_report_for_display (VStr text) = Return sections /\
    any_values sections = PyStr.nonempty text.
Proof.
  destruct text as [|ch text]; [eexists; split; vm_compute; reflexivity |].
  rewrite format_report_lines.
  destruct (classify_lines_cases (VStr (String ch text))
              (PyStr.split PyStr.newline (String ch text)))
    as [(key & cc & d & _ & Hk & (h & b & -> & Hh) & Hd & ->) | (cc & _ & ->)];
    eexists; (split; [reflexivity |]); now apply any_values_insert; try apply join_nonempty.
Qed.

(** X4. Lines before the first header are lost: a report with a preamble
    and a header gives the same sections as the report from its first
    header on. *)
Theorem format_report_preamble_lost
  (text text' : string) (pre rest : list string) (h target : string) :
  PyStr.split PyStr.newline text = pre ++ h :: rest ->
  PyStr.split PyStr.newline text' = h :: rest ->
  Forall plain_line pre ->
  detect_header (line_lower h) = Some target ->
  format_report_for_display (VStr text) = format_report_for_display (VStr text').
Proof.
  intros Hs Hs' Hpre Hh. rewrite !format_report_lines, Hs, Hs'.
  destruct (classify_lines_cases (VStr text') (h :: rest))
    as [(key & cc & d & Hrun & Hk & Hc & _ & ->) | (cc & Hrun & _)].
  - apply classify_lines_open; auto.
    now rewrite section_loop_preamble.
  - rewrite (section_loop_header h rest target) in Hrun by assumption.
    rewrite flush_none in Hrun. cbn [snd] in Hrun.
    destruct (section_loop_shape rest (Some target) [h] empty_sections)
      as (cs' & cc' & d' & Hrun' & _ & _ & _ & Hn).
    + exact (detect_header_key _ _ Hh).
    + exists h, []. split; [reflexivity | exact (header_nonempty _ _ Hh)].
    + exact empty_sections_shape.
    + rewrite Hrun in Hrun'. injection Hrun' as <- <- <-.
      destruct (Hn eq_refl) as [_ Habs]. discriminate.
Qed.

Lemma format_report_preamble_lost_witness :
  format_report_for_display
    (VStr ("Confidential draft" +:+ nl +:+ "## SWOT" +:+ nl +:+ "Strong brand"))
  = format_report_for_display (VStr ("## SWOT" +:+ nl +:+ "Strong brand")).
Proof.
  apply (format_report_preamble_lost _ _ ["Confidential draft"] ["Strong brand"]
           "## SWOT" "detailed_analysis");
    try (vm_compute; reflexivity).
  repeat (constructor; [vm_compute; reflexivity |]); constructor.
Defined.

(** X5. A second header of the same section replaces what the first one
    collected: of two blocks that go to one section only the later is
    returned. *)
Theorem format_report_later_block_wins
  (text : string) (pre b1 b2 : list string) (h1 h2 key : string) :
  PyStr.split PyStr.newline text = pre ++ h1 :: b1 ++ h2 :: b2 ->
  Forall plain_line pre -> Forall plain_line b1 -> Forall plain_line b2 ->
  detect_header (line_lower h1) = Some key ->
  detect_header (line_lower h2) = Some key ->
  format_report_for_display (VStr text)
  = Return (<[key := VStr (PyStr.join nl (h2 :: b2))]> empty_sections).
Proof.
  intros Hs Hpre H1 H2 E1 E2.
  pose proof (detect_header_key _ _ E1) as Hk.
  pose proof (section_key_nonempty key Hk) as Hne.
  rewrite format_report_lines, Hs.
  rewrite (classify_lines_open _ _ key (h2 :: b2)
             (<[key := VStr (PyStr.join nl (h1 :: b1))]> empty_sections)).
  - now rewrite insert_insert_eq.
  - rewrite section_loop_preamble by assumption.
    rewrite (section_loop_header h1 _ key) by assumption.
    rewrite flush_none. cbn [snd].
    rewrite section_loop_plain by assumption.
    rewrite (section_loop_header h2 _ key) by assumption.
    rewrite flush_some by assumption. cbn [snd app].
    now rewrite section_loop_plain_end.
  - exact Hk.
  - exists h2, b2. split; [reflexivity | exact (header_nonempty _ _ E2)].
Qed.

Lemma format_report_later_block_wins_witness :
  format_report_for_display
    (VStr ("## EXECUTIVE SUMMARY" +:+ nl +:+ "We lead." +:+ nl +:+
           "## KEY FINDINGS" +:+ nl +:+ "1. Prices fell"))
  = Return (<["overview" := VStr (PyStr.join nl ["## KEY FINDINGS"; "1. Prices fell"])]>
              empty_sections).
Proof.
  apply (format_report_later_block_wins _ [] ["We lead."] ["1. Prices fell"]
           "## EXECUTIVE SUMMARY" "## KEY FINDINGS" "overview");
    try (vm_compute; reflexivity);
    repeat (constructor; [vm_compute; reflexivity |]); constructor.
Defined.

(** ** Sections are pieces of the report *)

Section Pieces.

Lemma contains_empty (h : string) : PyStr.contains "" h = true.
Proof. apply contains_spec. now exists "", h. Qed.

Lemma contains_refl (s : string) : PyStr.contains s s = true.
Proof. apply contains_spec. exists "", "". now rewrite append_nil_r. Qed.

(** The first lines of a text are its start. *)
Lemma join_app_head (m back : list string) :
  m <> [] -> exists q, PyStr.join nl (m ++ back) = PyStr.join nl m +:+ q.
Proof.
  induction m as [|y m IH]; [contradiction |]. intros _.
  destruct m as [|z m].
  - destruct back as [|b back].
    + exists "". now rewrite append_nil_r.
    + exists (nl +:+ PyStr.join nl (b :: back)). cbn [app].
      now rewrite join_cons by discriminate.
  - destruct IH as [q IH]; [discriminate |].
    exists q. cbn [app] in *.
    rewrite (join_cons y (z :: m ++ back)), (join_cons y (z :: m)) by discriminate.
    now rewrite IH, !append_assoc.
Qed.

(** Consecutive lines of a text, joined, occur in the text. *)
Lemma join_sublist (front m back : list string) :
  PyStr.contains (PyStr.join nl m) (PyStr.join nl (front ++ m ++ back)) = true.
Proof.
  destruct m as [|y m]; [apply contains_empty |].
  destruct (join_app_tail front y (m ++ back)) as [p Hp].
  destruct (join_app_head (y :: m) back) as [q Hq]; [discriminate |].
  apply contains_spec. exists p, q.
  cbn [app] in *. now rewrite Hp, Hq.
Qed.

Variable text : string.

Lemma pieces_insert (key s : string) (d : dict) :
  PyStr.contains s text = true -> pieces_of text d ->
  pieces_of text (<[key := VStr s]> d).
Proof.
  intros Hs Hd k x. rewrite lookup_insert. case_decide.
  - now intros [= <-].
  - apply Hd.
Qed.

Lemma pieces_empty_sections : pieces_of text empty_sections.
Proof.
  intros k x H. unfold empty_sections, sections_dict in H.
  do 4 (apply lookup_insert_Some in H as [[_ [= <-]] | [_ H]];
        [apply contains_empty |]).
  rewrite lookup_empty in H. discriminate.
Qed.

End Pieces.

Section PiecesLoop.

Variable text : string.

(** The loop only ever stores consecutive lines of the text. [seen] is
    what the loop has read so far. *)
Lemma section_loop_pieces (todo seen : list string) (cs : option string)
  (cc : list string) (d : dict) (st : option string * list string) (d' : dict) :
  PyStr.join nl (seen ++ todo) = text ->
  (exists front, seen = front ++ cc) ->
  (truthy_opt cs = false -> cc = []) ->
  pieces_of text d ->
  section_loop todo cs cc d = (Return st, d') ->
  pieces_of text d' /\ PyStr.contains (PyStr.join nl (snd st)) text = true.
Proof.
  revert seen cs cc d. induction todo as [|l todo IH];
    intros seen cs cc d Htext [front Hseen] Hcc Hd Hrun.
  - injection Hrun as <- <-. split; [exact Hd |]. cbn [snd].
    rewrite <- Htext, Hseen, app_nil_r.
    rewrite <- (app_nil_r cc) at 2. apply join_sublist.
  - cbn [section_loop] in Hrun.
    assert (Hnext : PyStr.join nl ((seen ++ [l]) ++ todo) = text)
      by now rewrite <- app_assoc.
    destruct (detect_header (line_lower l)) as [target|] eqn:E.
    + revert Hrun. stmt_step.
      assert (Hflush : exists d1, flush cs cc d = (Return tt, d1) /\ pieces_of text d1).
      { destruct cs as [key|]; [| now exists d].
        unfold flush. destruct (PyStr.nonempty key); [| now exists d].
        eexists. split; [reflexivity |]. apply pieces_insert; [| exact Hd].
        rewrite <- Htext, Hseen, <- app_assoc. apply join_sublist. }
      destruct Hflush as (d1 & -> & Hd1). intros Hrun.
      apply (IH (seen ++ [l]) (Some target) [l] d1); auto.
      * now exists seen.
      * cbn [truthy_opt].
        rewrite (section_key_nonempty target (detect_header_key _ _ E)).
        discriminate.
    + destruct (truthy_opt cs) eqn:Ht.
      * apply (IH (seen ++ [l]) cs (cc ++ [l]) d); auto.
        -- exists front. now rewrite Hseen, app_assoc.
        -- rewrite Ht. discriminate.
      * apply (IH (seen ++ [l]) cs cc d); auto.
        exists (seen ++ [l]). rewrite (Hcc eq_refl). now rewrite app_nil_r.
Qed.

End PiecesLoop.

(** X6. Every section returned for a [str] is a piece of the report: the
    classifier copies consecutive lines and never changes or invents text. *)
Theorem format_report_sections_are_pieces
  (text : string) (sections : dict) (key s : string) :
  format_report_for_display (VStr text) = Return sections ->
  sections !! key = Some (VStr s) ->
  PyStr.contains s text = true.
Proof.
  rewrite format_report_lines.
  destruct (classify_lines_cases (VStr text) (PyStr.split PyStr.newline text))
    as [(k & cc & d & Hrun & _ & _ & _ & ->) | (cc & _ & ->)];
    intros [= <-].
  - apply (section_loop_pieces text _ [] None [] empty_sections) in Hrun
      as [Hd Hcc]; auto.
    + revert key s. now apply pieces_insert.
    + apply join_split.
    + now exists [].
    + apply pieces_empty_sections.
  - revert key s. apply pieces_insert; [apply contains_refl |].
    apply pieces_empty_sections.
Qed.

Lemma format_report_sections_are_pieces_witness :
  PyStr.contains (PyStr.join nl ["## SWOT"; "Strong brand"])
    ("Draft" +:+ nl +:+ "## SWOT" +:+ nl +:+ "Strong brand") = true.
Proof.
  apply (format_report_sections_are_pieces
           ("Draft" +:+ nl +:+ "## SWOT" +:+ nl +:+ "Strong brand")
           (sections_dict "" (PyStr.join nl ["## SWOT"; "Strong brand"]) "" "")
           "detailed_analysis");
    vm_compute; reflexivity.
Defined.

(** ** The extractor on any report *)

Section ExtractorFacts.

Lemma count_competitors_bounds (lines : list string) :
  (0 <= count_competitors lines <= Z.of_nat (length lines))%Z.
Proof.
  induction lines as [|l ls IH]; cbn [count_competitors length]; [lia |].
  destruct (is_competitor_heading l); lia.
Qed.

Lemma count_competitors_filter (lines : list string) :
  count_competitors lines
  = Z.of_nat (length (List.filter is_competitor_heading lines)).
Proof.
  induction lines as [|l ls IH]; cbn [count_competitors List.filter]; [reflexivity |].
  destruct (is_competitor_heading l); cbn [length]; lia.
Qed.

Lemma collect_findings_length (lines : list string) (b : bool) :
  length (collect_findings lines b) <= length lines.
Proof.
  revert b. induction lines as [|l ls IH]; intros b;
    cbn [collect_findings length]; [lia |].
  destruct (PyStr.contains "key findings" (PyStr.lower l)); [specialize (IH true); lia |].
  destruct b; [| specialize (IH false); lia].
  destruct (PyStr.startswith_any (PyStr.strip l) finding_markers);
    [cbn [length]; specialize (IH true); lia |].
  destruct (PyStr.startswith l "##"); [cbn [length]; lia | specialize (IH true); lia].
Qed.

Lemma count_opportunities_bounds (lines : list string) (b : bool) :
  (0 <= count_opportunities lines b <= Z.of_nat (length lines))%Z.
Proof.
  revert b. induction lines as [|l ls IH]; intros b;
    cbn [count_opportunities length]; [lia |].
  destruct (is_opportunity_trigger l); [specialize (IH true); lia |].
  destruct b; [| specialize (IH false); lia].
  destruct (PyStr.startswith_any (PyStr.strip l) opportunity_markers);
    [specialize (IH true); lia |].
  destruct (PyStr.startswith l "##"); [lia | specialize (IH true); lia].
Qed.

Lemma count_opportunities_before (pre rest : list string) :
  Forall (fun l => PyStr.contains "opportunities" (PyStr.lower l) = false) pre ->
  count_opportunities (pre ++ rest) false = count_opportunities rest false.
Proof.
  induction 1 as [|l pre Hl _ IH]; [reflexivity |].
  cbn [app count_opportunities]. now rewrite market_opportunities, Hl.
Qed.

Lemma collect_findings_none (lines : list string) :
  Forall (fun l => PyStr.contains "key findings" (PyStr.lower l) = false) lines ->
  collect_findings lines false = [].
Proof.
  intros H. rewrite <- (app_nil_r lines). now rewrite collect_findings_before.
Qed.

Lemma count_opportunities_none (lines : list string) :
  Forall (fun l => PyStr.contains "opportunities" (PyStr.lower l) = false) lines ->
  count_opportunities lines false = 0%Z.
Proof.
  intros H. rewrite <- (app_nil_r lines). now rewrite count_opportunities_before.
Qed.

(** A word seen in a lowered line occurs in the lowered text. *)
Lemma lowered_line_in_text (word text l : string) :
  In l (PyStr.split PyStr.newline text) ->
  PyStr.contains word (PyStr.lower l) = true ->
  PyStr.contains word (PyStr.lower text) = true.
Proof.
  intros Hin Hw. apply line_in_text in Hin. rewrite join_split in Hin.
  apply contains_spec in Hin as [p [q ->]].
  apply (contains_trans _ (PyStr.lower l)); [exact Hw |].
  apply contains_spec. exists (PyStr.lower p), (PyStr.lower q).
  now rewrite !lower_app.
Qed.

Lemma no_word_in_lines (word text : string) :
  PyStr.contains word (PyStr.lower text) = false ->
  Forall (fun l => PyStr.contains word (PyStr.lower l) = false)
    (PyStr.split PyStr.newline text).
Proof.
  intros H. apply Forall_forall. intros l Hl. apply list_elem_of_In in Hl.
  destruct (PyStr.contains word (PyStr.lower l)) eqn:E; [| reflexivity].
  apply (lowered_line_in_text word text l Hl) in E. congruence.
Qed.

(** The finding taken from a numbered line is what follows its third
    character, whatever that character is. *)
Lemma numbered_line_third_character (d c : ascii) (t : string) :
  PyStr.isspace d = false ->
  PyStr.strip (PyStr.slice_from 3 (PyStr.strip (String d (String "." (String c t)))))
  = PyStr.strip t.
Proof.
  intros Hd. assert (Hdot : PyStr.isspace "." = false) by reflexivity.
  unfold PyStr.strip at 2. cbn [PyStr.rstrip].
  destruct (PyStr.rstrip t) as [|a r] eqn:E.
  - unfold PyStr.strip at 2. rewrite E.
    destruct (PyStr.isspace c); cbv beta iota; rewrite ?Hdot; cbv beta iota;
      cbn [PyStr.lstrip]; rewrite Hd; reflexivity.
  - cbn [PyStr.lstrip]. rewrite Hd. cbn [PyStr.slice_from].
    rewrite <- E. apply strip_rstrip.
Qed.

Lemma numbered_line_marker_any (d c : ascii) (t : string) :
  PyStr.isspace d = false ->
  PyStr.startswith (PyStr.strip (String d (String "." (String c t)))) (String d ".")
  = true.
Proof.
  intros Hd. assert (Hdot : PyStr.isspace "." = false) by reflexivity.
  unfold PyStr.strip. cbn [PyStr.rstrip].
  destruct (PyStr.rstrip t) as [|a r] eqn:E.
  - destruct (PyStr.isspace c); cbv beta iota; rewrite ?Hdot; cbv beta iota;
      cbn [PyStr.lstrip]; rewrite Hd; cbn [PyStr.startswith];
      now rewrite !Ascii.eqb_refl.
  - cbn [PyStr.lstrip]. rewrite Hd. cbn [PyStr.startswith].
    now rewrite !Ascii.eqb_refl.
Qed.

End ExtractorFacts.

(** X7. On every [str] the result holds the four metric keys; the threat
    level is always [Medium], and no count exceeds the number of lines of
    the report. *)
Theorem extract_metrics_shape (text : string) :
  exists competitors findings opportunities,
    extract_key_metrics (VStr text)
    = Return (metrics_dict competitors findings "Medium" opportunities) /\
    (0 <= competitors <= Z.of_nat (length (PyStr.split PyStr.newline text)))%Z /\
    length findings <= length (PyStr.split PyStr.newline text) /\
    (0 <= opportunities <= Z.of_nat (length (PyStr.split PyStr.newline text)))%Z.
Proof.
  do 3 eexists. split; [apply extract_key_metrics_run |].
  split; [apply count_competitors_bounds |].
  split; [apply collect_findings_length | apply count_opportunities_bounds].
Qed.

(** X8. Without the words [key findings] anywhere in the report, in any
    case of letters, no finding is returned, numbered lines or not. *)
Theorem extract_metrics_no_findings_heading (text : string) :
  PyStr.contains "key findings" (PyStr.lower text) = false ->
  exists competitors opportunities,
    extract_key_metrics (VStr text)
    = Return (metrics_dict competitors [] "Medium" opportunities).
Proof.
  intros H. apply no_word_in_lines in H.
  rewrite extract_key_metrics_run, (collect_findings_none _ H).
  now do 2 eexists.
Qed.

Lemma extract_metrics_no_findings_heading_witness :
  exists competitors opportunities,
    extract_key_metrics (VStr ("## Findings" +:+ nl +:+ "1. Prices fell"))
    = Return (metrics_dict competitors [] "Medium" opportunities).
Proof.
  apply (extract_metrics_no_findings_heading
           ("## Findings" +:+ nl +:+ "1. Prices fell")).
  vm_compute. reflexivity.
Defined.

(** X9. Without the word [opportunities] anywhere in the report, in any
    case of letters, the count of opportunities is zero. *)
Theorem extract_metrics_no_opportunities_heading (text : string) :
  PyStr.contains "opportunities" (PyStr.lower text) = false ->
  exists competitors findings,
    extract_key_metrics (VStr text)
    = Return (metrics_dict competitors findings "Medium" 0).
Proof.
  intros H. apply no_word_in_lines in H.
  rewrite extract_key_metrics_run, (count_opportunities_none _ H).
  now do 2 eexists.
Qed.

Lemma extract_metrics_no_opportunities_heading_witness :
  exists competitors findings,
    extract_key_metrics (VStr ("## Market opportunity" +:+ nl +:+ "- Expand east"))
    = Return (metrics_dict competitors findings "Medium" 0).
Proof.
  apply (extract_metrics_no_opportunities_heading
           ("## Market opportunity" +:+ nl +:+ "- Expand east")).
  vm_compute. reflexivity.
Defined.

(** X10. The number of competitors is the number of lines that start with
    [### ] and hold none of [recommendation], [summary], [finding]: every
    such heading counts, wherever it stands in the report. *)
Theorem extract_metrics_counts_headings (text : string) :
  exists findings opportunities,
    extract_key_metrics (VStr text)
    = Return (metrics_dict
                (Z.of_nat (length (List.filter is_competitor_heading
                                     (PyStr.split PyStr.newline text))))
                findings "Medium" opportunities).
Proof.
  rewrite extract_key_metrics_run, count_competitors_filter.
  now do 2 eexists.
Qed.

(** X11. The finding taken from a line [d.ct] after the trigger line is
    [t] stripped, for every character [c]: three characters are cut where
    the marker has two, so a finding typed without a space after the dot
    loses its first letter. *)
Theorem key_finding_cut_after_three_characters
  (text : string) (pre rest : list string) (trigger t : string) (d c : ascii) :
  PyStr.split PyStr.newline text
    = pre ++ trigger :: String d (String "." (String c t)) :: rest ->
  Forall (fun l => PyStr.contains "key findings" (PyStr.lower l) = false) pre ->
  PyStr.contains "key findings" (PyStr.lower trigger) = true ->
  In (String d ".") finding_markers ->
  PyStr.contains "key findings"
    (PyStr.lower (String d (String "." (String c t)))) = false ->
  exists competitors later opportunities,
    extract_key_metrics (VStr text)
    = Return (metrics_dict competitors (PyStr.strip t :: later) "Medium"
                opportunities).
Proof.
  intros Hs Hpre Htrigger Hd Hline.
  assert (Hsp : PyStr.isspace d = false).
  { simpl in Hd.
    repeat (destruct Hd as [Hd | Hd]; [injection Hd as <-; reflexivity |]).
    contradiction. }
  assert (Hm : PyStr.startswith_any
                 (PyStr.strip (String d (String "." (String c t))))
                 finding_markers = true).
  { apply existsb_exists. exists (String d "."). split; [exact Hd |].
    now apply numbered_line_marker_any. }
  rewrite extract_key_metrics_run, Hs.
  rewrite collect_findings_before by assumption.
  rewrite collect_findings_trigger by assumption.
  cbn [collect_findings]. rewrite Hline, Hm.
  rewrite numbered_line_third_character by assumption.
  now do 3 eexists.
Qed.

Lemma key_finding_cut_after_three_characters_witness :
  exists competitors later opportunities,
    extract_key_metrics (VStr ("Key Findings" +:+ nl +:+ "1.Foo"))
    = Return (metrics_dict competitors (PyStr.strip "oo" :: later) "Medium"
                opportunities).
Proof.
  apply (key_finding_cut_after_three_characters
           ("Key Findings" +:+ nl +:+ "1.Foo") [] [] "Key Findings" "oo" "1" "F");
    try (vm_compute; reflexivity); try constructor.
  simpl. tauto.
Defined.

(** ** The renderer line by line *)

(** Decide the comparisons of characters that are written out. *)
Ltac eval_eqb :=
  repeat match goal with
         | |- context [Ascii.eqb ?a ?b] =>
             let v := eval vm_compute in (Ascii.eqb a b) in
             lazymatch v with
             | true => change (Ascii.eqb a b) with true
             | false => change (Ascii.eqb a b) with false
             end
         end.

Section RendererFacts.

Import PDFReportGenerator.

Variable accepts : style -> string -> bool.

Lemma rstrip_all_space (w : string) :
  all_chars PyStr.isspace w = true -> PyStr.rstrip w = "".
Proof.
  induction w as [|c w IH]; [reflexivity |]. cbn [all_chars PyStr.rstrip].
  intros [Hc Hw]%andb_true_iff. now rewrite (IH Hw), Hc.
Qed.

(** Stripping keeps a first character that is no white space. *)
Lemma strip_keeps_head (c : ascii) (s : string) :
  PyStr.isspace c = false ->
  PyStr.strip (String c s) = String c (PyStr.rstrip s).
Proof.
  intros Hc. unfold PyStr.strip. cbn [PyStr.rstrip].
  destruct (PyStr.rstrip s); rewrite ?Hc; cbn [PyStr.lstrip]; now rewrite Hc.
Qed.

Lemma nonempty_strip (raw : string) :
  PyStr.nonempty (PyStr.strip raw) = false <-> PyStr.strip raw = "".
Proof. destruct (PyStr.strip raw); split; (reflexivity || discriminate). Qed.

(** Building a paragraph returns it or raises [ValueError]. *)
Lemma Paragraph_cases (text : string) (st : style) :
  Paragraph accepts text st
  = if accepts st text then Return (Para text st) else Raise ValueError.
Proof. reflexivity. Qed.

(** Split the tests of [parse_line] and the calls of the acceptor. *)
Ltac split_line :=
  unfold Paragraph; run_outcome;
  repeat match goal with
         | |- context [if ?b then _ else _] => destruct b eqn:?
         end.

(** A line adds no flowable exactly when it is blank. *)
Lemma parse_line_nil (raw : string) :
  parse_line accepts raw = Return [] <-> PyStr.strip raw = "".
Proof.
  unfold parse_line. destruct (PyStr.strip raw) as [|c s] eqn:E.
  - split; reflexivity.
  - cbn [PyStr.nonempty negb]. split_line; split; discriminate.
Qed.

(** A rule of dashes adds one spacer and nothing else. *)
Lemma parse_line_rule (raw : string) :
  PyStr.startswith (PyStr.strip raw) "---" = true ->
  parse_line accepts raw = Return [Spacer 1 10].
Proof.
  intros H. unfold parse_line.
  apply startswith_spec in H as [q ->]. cbn [String.append PyStr.nonempty negb].
  cbn [PyStr.startswith]. eval_eqb. reflexivity.
Qed.

(** Any other line that is not blank adds exactly one paragraph. *)
Lemma parse_line_paragraphs (raw : string) (added : list flowable) :
  parse_line accepts raw = Return added ->
  length (List.filter is_paragraph added)
  = if is_text_line raw then 1 else 0.
Proof.
  unfold is_text_line.
  destruct (PyStr.startswith (PyStr.strip raw) "---") eqn:Hrule.
  - rewrite (parse_line_rule raw Hrule), andb_false_r. now intros [= <-].
  - unfold parse_line. rewrite Hrule.
    destruct (PyStr.nonempty (PyStr.strip raw)); cbn [negb andb];
      [| now intros [= <-]].
    split_line; intros [= <-]; reflexivity.
Qed.

Lemma parse_line_length (raw : string) (added : list flowable) :
  parse_line accepts raw = Return added -> length added <= 3.
Proof.
  unfold parse_line. split_line; intros [= <-]; cbn [length]; lia.
Qed.

(** A line raises only [ValueError], and only when a text is refused. *)
Lemma parse_line_raise (raw : string) (e : exn) :
  parse_line accepts raw = Raise e ->
  e = ValueError /\ exists st text, accepts st text = false.
Proof.
  unfold parse_line. split_line; intros [= <-]; (split; [reflexivity |]);
    match goal with
    | H : accepts ?st ?text = false |- _ => now exists st, text
    end.
Qed.

(** The list the loop starts with is kept in front of what it adds. *)
Lemma parse_loop_acc (lines : list string) (elements : list flowable) :
  parse_loop accepts lines elements
  = match parse_loop accepts lines [] with
    | Return added => Return (elements ++ added)
    | Raise e => Raise e
    end.
Proof.
  revert elements. induction lines as [|raw lines IH]; intros elements.
  - cbn [parse_loop]. run_outcome. now rewrite app_nil_r.
  - cbn [parse_loop]. run_outcome.
    destruct (parse_line accepts raw) as [added|e]; [| reflexivity].
    rewrite (IH (elements ++ added)), (IH ([] ++ added)).
    destruct (parse_loop accepts lines []); [| reflexivity].
    now rewrite app_assoc.
Qed.

Lemma parse_loop_cons (raw : string) (lines : list string) :
  parse_loop accepts (raw :: lines) []
  = match parse_line accepts raw with
    | Return added =>
        match parse_loop accepts lines [] with
        | Return more => Return (added ++ more)
        | Raise e => Raise e
        end
    | Raise e => Raise e
    end.
Proof.
  cbn [parse_loop]. run_outcome.
  destruct (parse_line accepts raw) as [added|e]; [| reflexivity].
  now rewrite parse_loop_acc.
Qed.

(** A blank line in the middle changes nothing, raise or return. *)
Lemma parse_loop_skip_blank (before after : list string) (raw : string) :
  PyStr.strip raw = "" ->
  parse_loop accepts (before ++ raw :: after) []
  = parse_loop accepts (before ++ after) [].
Proof.
  intros Hraw. induction before as [|l before IH]; cbn [app].
  - rewrite parse_loop_cons. apply parse_line_nil in Hraw. rewrite Hraw.
    now destruct (parse_loop accepts after []).
  - now rewrite !parse_loop_cons, IH.
Qed.

(** What the loop returns, counted. *)
Lemma parse_loop_counts (lines : list string) (added : list flowable) :
  parse_loop accepts lines [] = Return added ->
  length (List.filter is_paragraph added)
  = length (List.filter is_text_line lines)
  /\ length added <= 3 * length lines.
Proof.
  revert added. induction lines as [|raw lines IH]; intros added.
  - intros [= <-]. split; [reflexivity | cbn [length]; lia].
  - rewrite parse_loop_cons.
    destruct (parse_line accepts raw) as [first|e] eqn:Hl; [| discriminate].
    destruct (parse_loop accepts lines []) as [more|e] eqn:Hm; [| discriminate].
    intros [= <-]. destruct (IH more eq_refl) as [IHp IHl].
    rewrite List.filter_app, !length_app, (parse_line_paragraphs raw first Hl), IHp.
    pose proof (parse_line_length raw first Hl).
    cbn [List.filter length]. split; [| lia].
    destruct (is_text_line raw); reflexivity.
Qed.

Lemma parse_loop_raise (lines : list string) (e : exn) :
  parse_loop accepts lines [] = Raise e ->
  e = ValueError /\ exists st text, accepts st text = false.
Proof.
  induction lines as [|raw lines IH]; [discriminate |].
  rewrite parse_loop_cons.
  destruct (parse_line accepts raw) as [first|e'] eqn:Hl.
  - destruct (parse_loop accepts lines []) as [more|e'']; [discriminate |].
    intros [= <-]. now apply IH.
  - intros [= <-]. now apply (parse_line_raise raw).
Qed.

End RendererFacts.

Section RendererLines.

Import PDFReportGenerator.


End RendererLines.

(** X12. The body of the document is returned empty exactly when every
    line of the report is blank, whatever texts ReportLab takes: a line
    with any text adds a flowable or raises. *)
Theorem parse_report_empty_iff_blank
  (accepts : PDFReportGenerator.style -> string -> bool) (content : string) :
  PDFReportGenerator._parse_report_content accepts content = Return []
  <-> Forall (fun raw => PyStr.strip raw = "") (PyStr.split PyStr.newline content).
Proof.
  unfold PDFReportGenerator._parse_report_content.
  induction (PyStr.split PyStr.newline content) as [|raw lines IH].
  - split; [constructor | reflexivity].
  - rewrite parse_loop_cons. split.
    + destruct (PDFReportGenerator.parse_line accepts raw) as [first|e] eqn:Hl;
        [| discriminate].
      destruct (PDFReportGenerator.parse_loop accepts lines []) as [more|e];
        [| discriminate].
      intros [= H]. apply app_eq_nil in H as [-> ->].
      constructor; [now apply (parse_line_nil accepts) | now apply IH].
    + intros H. inversion_clear H as [|? ? H1 H2].
      apply (parse_line_nil accepts) in H1. rewrite H1.
      apply IH in H2. now rewrite H2.
Qed.

(** X13. Blank lines leave no trace: a report and the same report without
    one of its blank lines give the same flowables, or raise alike. *)
Theorem parse_report_blank_line_ignored
  (accepts : PDFReportGenerator.style -> string -> bool)
  (content content' : string) (before after : list string) (raw : string) :
  PyStr.split PyStr.newline content = before ++ raw :: after ->
  PyStr.split PyStr.newline content' = before ++ after ->
  PyStr.strip raw = "" ->
  PDFReportGenerator._parse_report_content accepts content
  = PDFReportGenerator._parse_report_content accepts content'.
Proof.
  intros Hs Hs' Hraw. unfold PDFReportGenerator._parse_report_content.
  rewrite Hs, Hs'. now apply parse_loop_skip_blank.
Qed.

Lemma parse_report_blank_line_ignored_witness :
  PDFReportGenerator._parse_report_content (fun _ _ => true)
    ("# Title" +:+ nl +:+ "   " +:+ nl +:+ "Body")
  = PDFReportGenerator._parse_report_content (fun _ _ => true)
      ("# Title" +:+ nl +:+ "Body").
Proof.
  apply (parse_report_blank_line_ignored _ _ _ ["# Title"] ["Body"] "   ");
    vm_compute; reflexivity.
Defined.

(** X14. When [generate_pdf] hands a list to the layout engine, the list
    holds one paragraph for every line of the report that is neither blank
    nor a rule of dashes, after the four paragraphs of the title page, and
    at most three flowables per line. Otherwise it raises [ValueError],
    and ReportLab has refused a text; so it hands a list over whenever
    every text is taken. *)
Theorem generate_pdf_one_paragraph_per_line
  (accepts : PDFReportGenerator.style -> string -> bool)
  (me : PDFReportGenerator.self) (now : datetime) (report_content : string) :
  match PDFReportGenerator.generate_pdf accepts me now report_content with
  | Return elements =>
      length (List.filter is_paragraph elements)
      = 4 + length (List.filter is_text_line
                      (PyStr.split PyStr.newline report_content))
      /\ 8 <= length elements
         <= 8 + 3 * length (PyStr.split PyStr.newline report_content)
  | Raise e =>
      e = ValueError /\ exists st text, accepts st text = false
  end.
Proof.
  unfold PDFReportGenerator.generate_pdf. rewrite create_title_page_cases.
  destruct (_ && _) eqn:Htitle; run_outcome.
  - unfold PDFReportGenerator._parse_report_content.
    destruct (PDFReportGenerator.parse_loop accepts
                (PyStr.split PyStr.newline report_content) []) as [body|e] eqn:Hb.
    + destruct (parse_loop_counts accepts _ _ Hb) as [Hp Hl].
      cbn [app List.filter is_paragraph length]. rewrite Hp. lia.
    + now apply (parse_loop_raise accepts) in Hb.
  - split; [reflexivity |].
    repeat (apply andb_false_iff in Htitle as [Htitle | Htitle]);
      eauto.
Qed.

(** X15. A line that starts with three dashes adds one spacer, whatever
    follows the dashes: text on the same line as a rule is not printed,
    and no paragraph is built for it. *)
Theorem parse_line_rule_drops_text
  (accepts : PDFReportGenerator.style -> string -> bool) (raw rest : string) :
  PyStr.strip raw = "---" +:+ rest ->
  PDFReportGenerator.parse_line accepts raw
  = Return [PDFReportGenerator.Spacer 1 10]
  /\ forall added,
       PDFReportGenerator.parse_line accepts raw = Return added ->
       List.filter is_paragraph added = [].
Proof.
  intros H.
  assert (Hrule : PDFReportGenerator.parse_line accepts raw
                  = Return [PDFReportGenerator.Spacer 1 10]).
  { apply parse_line_rule. apply startswith_spec. now exists rest. }
  split; [exact Hrule |]. intros added. rewrite Hrule. now intros [= <-].
Qed.

Lemma parse_line_rule_drops_text_witness :
  PDFReportGenerator.parse_line (fun _ _ => false)
    "--- Report generated by the system"
  = Return [PDFReportGenerator.Spacer 1 10].
Proof.
  exact (proj1 (parse_line_rule_drops_text (fun _ _ => false)
                  "--- Report generated by the system"
                  " Report generated by the system" eq_refl)).
Defined.

(** X16. A line whose first character, once stripped, is none of
    [#], [-], [*], [1], [2], [3] goes to one body paragraph with its
    inline markup resolved, which is the line's only flowable when
    ReportLab takes the resolved text and raises [ValueError] when it does
    not; so a line [4. ...] is no list item. *)
Theorem parse_line_body_paragraph
  (accepts : PDFReportGenerator.style -> string -> bool)
  (raw : string) (c : ascii) (rest : string) :
  PyStr.strip raw = String c rest ->
  marker_start c = false ->
  PDFReportGenerator.parse_line accepts raw
  = if accepts PDFReportGenerator.CustomBody
         (PDFReportGenerator._clean_markdown (PyStr.strip raw))
    then Return [PDFReportGenerator.Para
                   (PDFReportGenerator._clean_markdown (PyStr.strip raw))
                   PDFReportGenerator.CustomBody]
    else Raise ValueError.
Proof.
  intros Hs Hc. unfold PDFReportGenerator.parse_line. rewrite Hs.
  unfold marker_start in Hc. cbn [existsb] in Hc.
  repeat (apply orb_false_iff in Hc as [? Hc]).
  cbn [PyStr.nonempty negb PyStr.startswith].
  repeat match goal with
         | H : Ascii.eqb c _ = false |- _ => rewrite H; clear H
         end.
  cbn [andb orb]. unfold PDFReportGenerator.Paragraph. run_outcome.
  now destruct (accepts _ _).
Qed.

Lemma parse_line_body_paragraph_witness :
  PDFReportGenerator.parse_line (fun _ _ => true) "4. Expand **east**"
  = Return [PDFReportGenerator.Para "4. Expand <b>east</b>"
              PDFReportGenerator.CustomBody].
Proof.
  exact (parse_line_body_paragraph (fun _ _ => true)
           "4. Expand **east**" "4" ". Expand **east**" eq_refl eq_refl).
Defined.




(** X18. A marker with nothing after it is no heading and no list item:
    stripping removes the space the marker needs, and the line goes to a
    body paragraph that holds the marker, unchanged by the markup pass. *)
Theorem parse_line_bare_marker
  (accepts : PDFReportGenerator.style -> string -> bool)
  (marker blanks : string) :
  In marker bare_markers ->
  all_chars PyStr.isspace blanks = true ->
  PDFReportGenerator.parse_line accepts (marker +:+ blanks)
  = if accepts PDFReportGenerator.CustomBody marker
    then Return [PDFReportGenerator.Para marker PDFReportGenerator.CustomBody]
    else Raise ValueError.
Proof.
  intros Hm Hb. apply rstrip_all_space in Hb.
  unfold bare_markers in Hm. cbn [In] in Hm.
  repeat (destruct Hm as [<- | Hm];
          [unfold PDFReportGenerator.parse_line; cbn [String.append];
           rewrite strip_keeps_head by reflexivity;
           cbn [PyStr.rstrip]; rewrite Hb; vm_compute;
           now destruct (accepts _ _) |]).
  contradiction.
Qed.

Lemma parse_line_bare_marker_witness :
  PDFReportGenerator.parse_line (fun _ _ => true) ("-" +:+ "  ")
  = Return [PDFReportGenerator.Para "-" PDFReportGenerator.CustomBody].
Proof.
  exact (parse_line_bare_marker (fun _ _ => true) "-" "  "
           (or_intror (or_intror (or_intror (or_introl eq_refl)))) eq_refl).
Defined.

(** ** Inline markup *)

Section SubFacts.

Variables (c : ascii) (p : list Re.item) (t : Re.template).

Lemma all_chars_app (cls : ascii -> bool) (a b : string) :
  all_chars cls (a +:+ b) = all_chars cls a && all_chars cls b.
Proof.
  induction a as [|x a IH]; [reflexivity |]. cbn [String.append all_chars].
  now rewrite IH, andb_assoc.
Qed.

(** A pattern that starts with a literal matches nowhere in a text without
    that character. *)
Lemma sub_from_free_prefix (a s : string) :
  free_of c a = true ->
  Re.sub_from (Re.One (Re.lit c) :: p) t (a +:+ s) 0
  = a +:+ Re.sub_from (Re.One (Re.lit c) :: p) t s 0.
Proof.
  induction a as [|x a IH]; [reflexivity |].
  unfold free_of. cbn [all_chars]. intros [Hx Ha]%andb_true_iff.
  apply negb_true_iff in Hx.
  cbn [String.append Re.sub_from Re.match_here]. rewrite Hx.
  now rewrite (IH Ha).
Qed.

Lemma sub_from_free (s : string) :
  free_of c s = true -> Re.sub_from (Re.One (Re.lit c) :: p) t s 0 = s.
Proof.
  intros H. rewrite <- (append_nil_r s) at 1.
  rewrite sub_from_free_prefix by exact H. cbn [Re.sub_from]. apply append_nil_r.
Qed.

Lemma sub_free (s : string) :
  free_of c s = true -> Re.sub (Re.One (Re.lit c) :: p) t s = s.
Proof. apply sub_from_free. Qed.

End SubFacts.

Section Skip.

Variables (p : list Re.item) (t : Re.template).

(** The characters of a match are passed over. *)
Lemma sub_from_skip (x y : string) :
  Re.sub_from p t (x +:+ y) (String.length x) = Re.sub_from p t y 0.
Proof.
  induction x as [|ch x IH]; [reflexivity |].
  cbn [String.append String.length Re.sub_from]. exact IH.
Qed.

Lemma length_append (x y : string) :
  String.length (x +:+ y) = String.length x + String.length y.
Proof.
  induction x as [|ch x IH]; [reflexivity |].
  cbn [String.append String.length]. now rewrite IH.
Qed.

(** One match at the start of [s], whose rest is [y]. *)
Lemma sub_from_match (ch : ascii) (x y cap : string) :
  Re.match_here p (String ch (x +:+ y)) false "" = Some (cap, y) ->
  Re.sub_from p t (String ch (x +:+ y)) 0
  = Re.expand t cap +:+ Re.sub_from p t y 0.
Proof.
  intros H. cbn [Re.sub_from]. rewrite H.
  replace (String.length (x +:+ y) - String.length y) with (String.length x)
    by (rewrite length_append; lia).
  now rewrite sub_from_skip.
Qed.

End Skip.

Section Steps.

Variables (cls : ascii -> bool) (p : list Re.item).

(** One step of the matcher, item by item. *)
Lemma match_one (x : ascii) (s : string) (open : bool) (cap : string) :
  Re.match_here (Re.One cls :: p) (String x s) open cap
  = if cls x then Re.match_here p s open (Re.push open x cap) else None.
Proof. reflexivity. Qed.

Lemma match_open (s : string) (open : bool) (cap : string) :
  Re.match_here (Re.GroupOpen :: p) s open cap = Re.match_here p s true "".
Proof. reflexivity. Qed.

Lemma match_lazy (x : ascii) (s : string) (open : bool) (cap : string) :
  Re.match_here (Re.PlusLazy cls :: p) (String x s) open cap
  = if cls x
    then match Re.match_here p s open (Re.push open x cap) with
         | Some r => Some r
         | None => Re.match_here (Re.PlusLazy cls :: p) s open (Re.push open x cap)
         end
    else None.
Proof. reflexivity. Qed.

End Steps.

Section Lazy.

Variables (c : ascii) (closing : list Re.item).

(** The closing mark is not at the start of a text without it. *)
Lemma closing_absent (s : string) (open : bool) (cap : string) :
  free_of c s = true ->
  Re.match_here (Re.GroupClose :: Re.One (Re.lit c) :: closing) s open cap = None.
Proof.
  destruct s as [|y s]; [reflexivity |].
  unfold free_of. cbn [all_chars]. intros [Hy _]%andb_true_iff.
  apply negb_true_iff in Hy. cbn [Re.match_here]. now rewrite Hy.
Qed.

(** [.+?] never reaches a closing mark that the text does not hold. *)
Lemma lazy_no_closing (s : string) (open : bool) (cap : string) :
  free_of c s = true ->
  Re.match_here (Re.PlusLazy Re.dot :: Re.GroupClose :: Re.One (Re.lit c) :: closing)
    s open cap = None.
Proof.
  revert cap. induction s as [|x s IH]; intros cap; [reflexivity |].
  unfold free_of. cbn [all_chars]. intros [Hx Hs]%andb_true_iff.
  specialize (IH (Re.push open x cap) Hs).
  cbn [Re.match_here] in *. destruct (Re.dot x); [| reflexivity].
  rewrite IH. destruct s as [|y s]; [reflexivity |].
  unfold free_of in Hs. cbn [all_chars] in Hs.
  apply andb_true_iff in Hs as [Hy _]. apply negb_true_iff in Hy.
  now rewrite Hy.
Qed.

(** [.+?] stops at the first closing mark. *)
Lemma lazy_to_closing (body rest rest' : string) (x : ascii) (cap : string) :
  free_of c (String x body) = true ->
  all_chars Re.dot (String x body) = true ->
  Re.match_here closing rest false (cap +:+ String x body)
  = Some (cap +:+ String x body, rest') ->
  Re.match_here (Re.PlusLazy Re.dot :: Re.GroupClose :: Re.One (Re.lit c) :: closing)
    (String x body +:+ String c rest) true cap
  = Some (cap +:+ String x body, rest').
Proof.
  revert x cap. induction body as [|y body IH]; intros x cap Hfree Hdot Hclose.
  - cbn [all_chars] in Hdot. apply andb_true_iff in Hdot as [Hx _].
    cbn [String.append Re.match_here]. rewrite Hx.
    unfold Re.lit at 1. rewrite Ascii.eqb_refl.
    cbn [Re.push]. now rewrite Hclose.
  - unfold free_of in Hfree. cbn [all_chars] in Hfree, Hdot.
    apply andb_true_iff in Hfree as [_ Hfree].
    apply andb_true_iff in Hdot as [Hx Hdot].
    pose proof Hfree as Hy. apply andb_true_iff in Hy as [Hy _].
    apply negb_true_iff in Hy.
    specialize (IH y (cap +:+ String x "") Hfree Hdot).
    replace ((cap +:+ String x "") +:+ String y body)
      with (cap +:+ String x (String y body)) in IH
      by (now rewrite append_assoc).
    specialize (IH Hclose).
    cbn [String.append Re.match_here] in *. rewrite Hx, Hy.
    cbn [Re.push]. exact IH.
Qed.

End Lazy.

Section Markup.

Import PDFReportGenerator.

Lemma free_of_app (c : ascii) (a b : string) :
  free_of c (a +:+ b) = free_of c a && free_of c b.
Proof. apply all_chars_app. Qed.

Lemma markup_free_star (s : string) : markup_free s = true -> free_of star s = true.
Proof. now intros [H _]%andb_true_iff. Qed.

Lemma markup_free_backtick (s : string) :
  markup_free s = true -> free_of backtick s = true.
Proof. now intros [_ H]%andb_true_iff. Qed.

(** The three patterns, one opening mark read. *)
Lemma bold_match (x : ascii) (body rest : string) :
  free_of star (String x body) = true ->
  all_chars Re.dot (String x body) = true ->
  Re.match_here bold_pattern
    (String star (String star (String x body +:+ String star (String star rest))))
    false ""
  = Some (String x body, rest).
Proof.
  intros Hfree Hdot. unfold bold_pattern. cbn [Re.match_here].
  unfold Re.lit at 1 2. rewrite !Ascii.eqb_refl. cbn [Re.push].
  apply (lazy_to_closing star [Re.One (Re.lit star)] body (String star rest) rest x "");
    auto.
Qed.

Lemma single_match (c x : ascii) (body rest : string) :
  free_of c (String x body) = true ->
  all_chars Re.dot (String x body) = true ->
  Re.match_here
    [Re.One (Re.lit c); Re.GroupOpen; Re.PlusLazy Re.dot; Re.GroupClose;
     Re.One (Re.lit c)]
    (String c (String x body +:+ String c rest)) false ""
  = Some (String x body, rest).
Proof.
  intros Hfree Hdot. cbn [Re.match_here].
  unfold Re.lit at 1. rewrite Ascii.eqb_refl. cbn [Re.push].
  now apply (lazy_to_closing c [] body rest rest x "").
Qed.

End Markup.

Section MarkupSub.

Import PDFReportGenerator.

Variable t : Re.template.

(** One well-formed span between two texts without the mark. *)
Lemma sub_single_span (c : ascii) (a body b : string) :
  free_of c a = true -> free_of c body = true -> free_of c b = true ->
  PyStr.nonempty body = true -> all_chars Re.dot body = true ->
  Re.sub (single_pattern c) t (a +:+ String c (body +:+ String c b))
  = a +:+ Re.expand t body +:+ b.
Proof.
  intros Ha Hbody Hb Hne Hdot. destruct body as [|x body]; [discriminate |].
  unfold Re.sub, single_pattern. rewrite sub_from_free_prefix by exact Ha.
  replace (String x body +:+ String c b) with ((String x body +:+ String c "") +:+ b)
    by now rewrite append_assoc.
  rewrite (sub_from_match _ t c (String x body +:+ String c "") b (String x body)).
  - now rewrite sub_from_free.
  - rewrite append_assoc. now apply single_match.
Qed.

Lemma sub_bold_span (a body b : string) :
  free_of star a = true -> free_of star body = true -> free_of star b = true ->
  PyStr.nonempty body = true -> all_chars Re.dot body = true ->
  Re.sub bold_pattern t
    (a +:+ String star (String star (body +:+ String star (String star b))))
  = a +:+ Re.expand t body +:+ b.
Proof.
  intros Ha Hbody Hb Hne Hdot. destruct body as [|x body]; [discriminate |].
  unfold Re.sub, bold_pattern. rewrite sub_from_free_prefix by exact Ha.
  replace (String star (String x body +:+ String star (String star b)))
    with ((String star (String x body +:+ String star (String star ""))) +:+ b)
    by (cbn [String.append]; now rewrite append_assoc).
  rewrite (sub_from_match _ t star
             (String star (String x body +:+ String star (String star ""))) b
             (String x body)).
  - now rewrite sub_from_free.
  - cbn [String.append]. rewrite append_assoc. now apply bold_match.
Qed.

(** An opening mark that is never closed. *)
Lemma single_unclosed (c : ascii) (b : string) :
  free_of c b = true ->
  Re.match_here (single_pattern c) (String c b) false "" = None.
Proof.
  intros Hb. unfold single_pattern. cbn [Re.match_here].
  unfold Re.lit at 1. rewrite Ascii.eqb_refl. cbn [Re.push].
  exact (lazy_no_closing c [] b true "" Hb).
Qed.

Lemma sub_single_unclosed (c : ascii) (a b : string) :
  free_of c a = true -> free_of c b = true ->
  Re.sub (single_pattern c) t (a +:+ String c b) = a +:+ String c b.
Proof.
  intros Ha Hb. unfold Re.sub. unfold single_pattern at 1.
  rewrite sub_from_free_prefix by exact Ha.
  fold (single_pattern c). cbn [Re.sub_from]. rewrite single_unclosed by exact Hb.
  unfold single_pattern. now rewrite sub_from_free.
Qed.

(** One star alone does not open a bold span. *)
Lemma bold_one_star (b : string) :
  free_of star b = true ->
  Re.match_here bold_pattern (String star b) false "" = None.
Proof.
  intros Hb. unfold bold_pattern. cbn [Re.match_here].
  unfold Re.lit at 1. rewrite Ascii.eqb_refl.
  destruct b as [|y b]; [reflexivity |].
  unfold free_of in Hb. cbn [all_chars] in Hb.
  apply andb_true_iff in Hb as [Hy _]. apply negb_true_iff in Hy.
  now rewrite Hy.
Qed.

Lemma bold_two_stars (b : string) :
  free_of star b = true ->
  Re.match_here bold_pattern (String star (String star b)) false "" = None.
Proof.
  intros Hb. unfold bold_pattern. cbn [Re.match_here].
  unfold Re.lit at 1 2. rewrite !Ascii.eqb_refl. cbn [Re.push].
  exact (lazy_no_closing star [Re.One (Re.lit star)] b true "" Hb).
Qed.

Lemma italic_two_stars (b : string) :
  free_of star b = true ->
  Re.match_here (single_pattern star) (String star (String star b)) false "" = None.
Proof.
  intros Hb. unfold single_pattern.
  rewrite match_one. unfold Re.lit at 1. rewrite Ascii.eqb_refl.
  rewrite match_open, match_lazy. change (Re.dot star) with true. cbv beta iota.
  rewrite (closing_absent star [] b) by exact Hb.
  now apply lazy_no_closing.
Qed.

Lemma sub_bold_one_star (a b : string) :
  free_of star a = true -> free_of star b = true ->
  Re.sub bold_pattern t (a +:+ String star b) = a +:+ String star b.
Proof.
  intros Ha Hb. unfold Re.sub. unfold bold_pattern at 1.
  rewrite sub_from_free_prefix by exact Ha.
  fold bold_pattern. cbn [Re.sub_from]. rewrite bold_one_star by exact Hb.
  unfold bold_pattern. now rewrite sub_from_free.
Qed.

(** Two stars apart do not open a bold span either. *)
Lemma sub_bold_italic_span (a body b : string) :
  free_of star a = true -> free_of star body = true -> free_of star b = true ->
  PyStr.nonempty body = true ->
  Re.sub bold_pattern t (a +:+ String star (body +:+ String star b))
  = a +:+ String star (body +:+ String star b).
Proof.
  intros Ha Hbody Hb Hne. destruct body as [|x body]; [discriminate |].
  unfold Re.sub. unfold bold_pattern at 1.
  rewrite sub_from_free_prefix by exact Ha.
  fold bold_pattern. cbn [Re.sub_from].
  assert (Hfirst : Re.match_here bold_pattern
                     (String star (String x body +:+ String star b)) false "" = None).
  { unfold bold_pattern. rewrite match_one. unfold Re.lit at 1.
    rewrite Ascii.eqb_refl. cbn [String.append]. rewrite match_one.
    unfold free_of in Hbody. cbn [all_chars] in Hbody.
    apply andb_true_iff in Hbody as [Hx _]. apply negb_true_iff in Hx.
    now rewrite Hx. }
  rewrite Hfirst. unfold bold_pattern at 1.
  rewrite sub_from_free_prefix by exact Hbody.
  fold bold_pattern. cbn [Re.sub_from]. rewrite bold_one_star by exact Hb.
  unfold bold_pattern. now rewrite sub_from_free.
Qed.

Lemma sub_bold_two_stars (a b : string) :
  free_of star a = true -> free_of star b = true ->
  Re.sub bold_pattern t (a +:+ String star (String star b))
  = a +:+ String star (String star b).
Proof.
  intros Ha Hb. unfold Re.sub. unfold bold_pattern at 1.
  rewrite sub_from_free_prefix by exact Ha.
  fold bold_pattern. cbn [Re.sub_from].
  rewrite bold_two_stars, bold_one_star by exact Hb.
  unfold bold_pattern. now rewrite sub_from_free.
Qed.

Lemma sub_italic_two_stars (a b : string) :
  free_of star a = true -> free_of star b = true ->
  Re.sub (single_pattern star) t (a +:+ String star (String star b))
  = a +:+ String star (String star b).
Proof.
  intros Ha Hb. unfold Re.sub. unfold single_pattern at 1.
  rewrite sub_from_free_prefix by exact Ha.
  fold (single_pattern star). cbn [Re.sub_from].
  rewrite italic_two_stars, single_unclosed by exact Hb.
  unfold single_pattern. now rewrite sub_from_free.
Qed.

End MarkupSub.

Section MarkupTemplates.

Import PDFReportGenerator.

Lemma clean_markdown_passes (text : string) :
  _clean_markdown text
  = Re.sub (single_pattern backtick) code_template
      (Re.sub (single_pattern star) (Re.Template "<i>" "</i>")
         (Re.sub bold_pattern (Re.Template "<b>" "</b>") text)).
Proof. reflexivity. Qed.

(** What a template adds holds neither mark. *)
Lemma expand_free (c : ascii) (t : Re.template) (body : string) :
  free_of c (Re.before t) = true -> free_of c (Re.after t) = true ->
  free_of c body = true -> free_of c (Re.expand t body) = true.
Proof.
  intros H1 H2 H3. unfold Re.expand. now rewrite !free_of_app, H1, H2, H3.
Qed.

Lemma around_free (c : ascii) (a m b : string) :
  free_of c a = true -> free_of c m = true -> free_of c b = true ->
  free_of c (a +:+ m +:+ b) = true.
Proof. intros H1 H2 H3. now rewrite !free_of_app, H1, H2, H3. Qed.

End MarkupTemplates.

(** X19. A line without asterisk and without backtick is printed as typed. *)
Theorem clean_markdown_plain_text (text : string) :
  markup_free text = true ->
  PDFReportGenerator._clean_markdown text = text.
Proof.
  intros H. rewrite clean_markdown_passes.
  pose proof (markup_free_star _ H) as H1.
  pose proof (markup_free_backtick _ H) as H2.
  unfold PDFReportGenerator.bold_pattern, single_pattern.
  rewrite (sub_free _ _ _ text H1), (sub_free _ _ _ text H1).
  exact (sub_free _ _ _ text H2).
Qed.

Lemma clean_markdown_plain_text_witness :
  PDFReportGenerator._clean_markdown "Revenue grew by 4 % (net)."
  = "Revenue grew by 4 % (net).".
Proof. apply (clean_markdown_plain_text "Revenue grew by 4 % (net)."). reflexivity. Defined.

(** X20. One span between texts without markup: [**t**] becomes bold,
    [*t*] italic and a span between backticks monospace, for every text [t]
    that is not empty, holds no mark and no newline; what stands before and
    after is kept. *)
Theorem clean_markdown_one_span (a t b : string) :
  markup_free a = true -> markup_free t = true -> markup_free b = true ->
  PyStr.nonempty t = true -> all_chars Re.dot t = true ->
  PDFReportGenerator._clean_markdown (a +:+ "**" +:+ t +:+ "**" +:+ b)
  = a +:+ "<b>" +:+ t +:+ "</b>" +:+ b /\
  PDFReportGenerator._clean_markdown (a +:+ "*" +:+ t +:+ "*" +:+ b)
  = a +:+ "<i>" +:+ t +:+ "</i>" +:+ b /\
  PDFReportGenerator._clean_markdown (a +:+ "`" +:+ t +:+ "`" +:+ b)
  = a +:+ Re.expand code_template t +:+ b.
Proof.
  intros Ha Ht Hb Hne Hdot.
  pose proof (markup_free_star _ Ha) as Ha1. pose proof (markup_free_backtick _ Ha) as Ha2.
  pose proof (markup_free_star _ Ht) as Ht1. pose proof (markup_free_backtick _ Ht) as Ht2.
  pose proof (markup_free_star _ Hb) as Hb1. pose proof (markup_free_backtick _ Hb) as Hb2.
  rewrite !clean_markdown_passes. repeat split.
  - change (a +:+ "**" +:+ t +:+ "**" +:+ b)
      with (a +:+ String PDFReportGenerator.star (String PDFReportGenerator.star
              (t +:+ String PDFReportGenerator.star (String PDFReportGenerator.star b)))).
    rewrite sub_bold_span by assumption.
    unfold single_pattern.
    rewrite (sub_free PDFReportGenerator.star) by
      (apply around_free; auto; now apply expand_free).
    rewrite (sub_free PDFReportGenerator.backtick) by
      (apply around_free; auto; now apply expand_free).
    unfold Re.expand. cbn [Re.before Re.after]. now rewrite !append_assoc.
  - change (a +:+ "*" +:+ t +:+ "*" +:+ b)
      with (a +:+ String PDFReportGenerator.star
              (t +:+ String PDFReportGenerator.star b)).
    rewrite sub_bold_italic_span by assumption.
    rewrite sub_single_span by assumption.
    unfold single_pattern.
    rewrite (sub_free PDFReportGenerator.backtick) by
      (apply around_free; auto; now apply expand_free).
    unfold Re.expand. cbn [Re.before Re.after]. now rewrite !append_assoc.
  - change (a +:+ "`" +:+ t +:+ "`" +:+ b)
      with (a +:+ String PDFReportGenerator.backtick
              (t +:+ String PDFReportGenerator.backtick b)).
    assert (Hall : free_of PDFReportGenerator.star
                     (a +:+ String PDFReportGenerator.backtick
                        (t +:+ String PDFReportGenerator.backtick b)) = true).
    { rewrite free_of_app, Ha1.
      change (String PDFReportGenerator.backtick (t +:+ String PDFReportGenerator.backtick b))
        with (String PDFReportGenerator.backtick "" +:+ t
              +:+ String PDFReportGenerator.backtick "" +:+ b).
      now rewrite !free_of_app, Ht1, Hb1. }
    unfold PDFReportGenerator.bold_pattern. rewrite sub_free by exact Hall.
    unfold single_pattern at 2. rewrite sub_free by exact Hall.
    now rewrite sub_single_span.
Qed.

Lemma clean_markdown_one_span_witness :
  PDFReportGenerator._clean_markdown ("Price is " +:+ "**" +:+ "low" +:+ "**" +:+ " today")
  = "Price is " +:+ "<b>" +:+ "low" +:+ "</b>" +:+ " today".
Proof.
  apply (clean_markdown_one_span "Price is " "low" " today"); reflexivity.
Defined.

(** X21. A mark that is never closed is printed as typed: one asterisk,
    two asterisks or one backtick between texts without markup change
    nothing. *)
Theorem clean_markdown_unclosed_mark (a b : string) :
  markup_free a = true -> markup_free b = true ->
  PDFReportGenerator._clean_markdown (a +:+ "*" +:+ b) = a +:+ "*" +:+ b /\
  PDFReportGenerator._clean_markdown (a +:+ "**" +:+ b) = a +:+ "**" +:+ b /\
  PDFReportGenerator._clean_markdown (a +:+ "`" +:+ b) = a +:+ "`" +:+ b.
Proof.
  intros Ha Hb.
  pose proof (markup_free_star _ Ha) as Ha1. pose proof (markup_free_backtick _ Ha) as Ha2.
  pose proof (markup_free_star _ Hb) as Hb1. pose proof (markup_free_backtick _ Hb) as Hb2.
  rewrite !clean_markdown_passes. repeat split.
  - change (a +:+ "*" +:+ b) with (a +:+ String PDFReportGenerator.star b).
    rewrite sub_bold_one_star, sub_single_unclosed by assumption.
    unfold single_pattern. apply sub_free.
    rewrite free_of_app, Ha2.
    change (String PDFReportGenerator.star b)
      with (String PDFReportGenerator.star "" +:+ b).
    now rewrite free_of_app, Hb2.
  - change (a +:+ "**" +:+ b)
      with (a +:+ String PDFReportGenerator.star (String PDFReportGenerator.star b)).
    rewrite sub_bold_two_stars, sub_italic_two_stars by assumption.
    unfold single_pattern. apply sub_free.
    rewrite free_of_app, Ha2.
    change (String PDFReportGenerator.star (String PDFReportGenerator.star b))
      with (String PDFReportGenerator.star (String PDFReportGenerator.star "") +:+ b).
    now rewrite free_of_app, Hb2.
  - change (a +:+ "`" +:+ b) with (a +:+ String PDFReportGenerator.backtick b).
    assert (Hall : free_of PDFReportGenerator.star
                     (a +:+ String PDFReportGenerator.backtick b) = true).
    { rewrite free_of_app, Ha1.
      change (String PDFReportGenerator.backtick b)
        with (String PDFReportGenerator.backtick "" +:+ b).
      now rewrite free_of_app, Hb1. }
    unfold PDFReportGenerator.bold_pattern. rewrite sub_free by exact Hall.
    unfold single_pattern at 2. rewrite sub_free by exact Hall.
    now apply sub_single_unclosed.
Qed.

Lemma clean_markdown_unclosed_mark_witness :
  PDFReportGenerator._clean_markdown ("5 " +:+ "*" +:+ " 3 = 15") = "5 " +:+ "*" +:+ " 3 = 15".
Proof. apply (clean_markdown_unclosed_mark "5 " " 3 = 15"); reflexivity. Defined.

(** ** The export file name *)

Section FilenameFacts.

Lemma spec_sanitize_word (s : string) (b : bool) :
  all_chars Re.word (spec_collapse b (spec_strip s)) = true.
Proof.
  revert b. induction s as [|d s IH]; intros b; [reflexivity |].
  cbn [spec_strip]. destruct (spec_keep d) eqn:Hk; [| apply IH].
  cbn [spec_collapse]. destruct (spec_sep d) eqn:Hs.
  - destruct b; [apply IH |]. cbn [all_chars]. now rewrite IH.
  - cbn [all_chars]. rewrite IH, andb_true_r.
    revert Hk Hs. clear.
    destruct d as [[] [] [] [] [] [] [] []]; vm_compute; congruence.
Qed.

Lemma word_kept (c : ascii) :
  Re.word c = true -> spec_keep c = true /\ spec_sep c = false.
Proof. destruct c as [[] [] [] [] [] [] [] []]; vm_compute; intuition congruence. Qed.

Lemma spec_sanitize_fixed (s : string) :
  all_chars Re.word s = true -> spec_sanitize s = s.
Proof.
  unfold spec_sanitize. intros H.
  assert (Hstrip : spec_strip s = s).
  { induction s as [|c s IH]; [reflexivity |]. cbn [all_chars] in H.
    apply andb_true_iff in H as [Hc Hs]. cbn [spec_strip].
    destruct (word_kept c Hc) as [-> _]. now rewrite (IH Hs). }
  rewrite Hstrip. clear Hstrip.
  induction s as [|c s IH]; [reflexivity |]. cbn [all_chars] in H.
  apply andb_true_iff in H as [Hc Hs]. cbn [spec_collapse].
  destruct (word_kept c Hc) as [_ ->]. now rewrite (IH Hs).
Qed.

Lemma clean_name_spec (company_name : string) :
  clean_name company_name = spec_sanitize company_name.
Proof. apply sanitize_refines. Qed.

Lemma digit_word (n : nat) : Re.word (digit n) = true.
Proof.
  unfold digit. pose proof (Nat.mod_upper_bound n 10 ltac:(lia)) as H.
  destruct (n mod 10) as [|[|[|[|[|[|[|[|[|[|k]]]]]]]]]]; try reflexivity. lia.
Qed.

Lemma all_chars_weaken (p q : ascii -> bool) (s : string) :
  (forall c, p c = true -> q c = true) ->
  all_chars p s = true -> all_chars q s = true.
Proof.
  intros Hpq. induction s as [|c s IH]; [reflexivity |]. cbn [all_chars].
  intros [Hc Hs]%andb_true_iff. now rewrite (Hpq c Hc), (IH Hs).
Qed.

End FilenameFacts.

(** X22. Whatever the company name is, the name part of the file name
    holds word characters only, and a file name asked for with an extension
    of word characters holds, besides them, only the dot: no space, no
    slash, no backslash, no colon. *)
Theorem generate_filename_safe_characters
  (company_name extension : string) (now : datetime) :
  all_chars Re.word extension = true ->
  all_chars Re.word (clean_name company_name) = true /\
  all_chars filename_char (generate_filename company_name extension now) = true.
Proof.
  intros Hext.
  assert (Hname : all_chars Re.word (clean_name company_name) = true).
  { rewrite clean_name_spec. apply spec_sanitize_word. }
  split; [exact Hname |].
  assert (Hw : forall s, all_chars Re.word s = true -> all_chars filename_char s = true).
  { intros s. apply all_chars_weaken. intros c Hc. unfold filename_char. now rewrite Hc. }
  unfold generate_filename, strftime_stamp, four_digits, two_digits.
  fold (clean_name company_name).
  rewrite !all_chars_app, (Hw _ Hname), (Hw _ Hext).
  cbn [all_chars].
  assert (Hd : forall n, filename_char (digit n) = true)
    by (intros n; unfold filename_char; now rewrite digit_word).
  rewrite !Hd. reflexivity.
Qed.

Lemma generate_filename_safe_characters_witness :
  all_chars Re.word (clean_name "../etc/Acme & Sons") = true /\
  all_chars filename_char
    (generate_filename "../etc/Acme & Sons" "pdf" {| year := 2024; month := 5; day := 1 |})
  = true.
Proof.
  apply (generate_filename_safe_characters "../etc/Acme & Sons" "pdf"). reflexivity.
Defined.

(** X23. Cleaning a name twice is cleaning it once: the name part of a file
    name is left as it is when it goes through the two substitutions again. *)
Theorem clean_name_idempotent (company_name : string) :
  clean_name (clean_name company_name) = clean_name company_name.
Proof.
  rewrite (clean_name_spec (clean_name company_name)).
  apply spec_sanitize_fixed. rewrite clean_name_spec. apply spec_sanitize_word.
Qed.

(** ** The exported text *)

Section ExportFacts.

Lemma keep_printable_chars (s : string) :
  all_chars export_char (keep_printable s) = true.
Proof.
  induction s as [|c s IH]; [reflexivity |]. cbn [keep_printable].
  destruct (isprintable c || Ascii.eqb c PyStr.newline) eqn:E; [| exact IH].
  cbn [all_chars]. unfold export_char at 1. now rewrite E, IH.
Qed.

Lemma keep_printable_fixed (s : string) :
  all_chars isprintable s = true -> keep_printable s = s.
Proof.
  induction s as [|c s IH]; [reflexivity |]. cbn [all_chars keep_printable].
  intros [Hc Hs]%andb_true_iff. now rewrite Hc, (IH Hs).
Qed.

Lemma keep_printable_app (a b : string) :
  keep_printable (a +:+ b) = keep_printable a +:+ keep_printable b.
Proof.
  induction a as [|c a IH]; [reflexivity |]. cbn [String.append keep_printable].
  destruct (isprintable c || Ascii.eqb c PyStr.newline); cbn [String.append];
    now rewrite IH.
Qed.

Lemma all_chars_strip (cls : ascii -> bool) (s : string) :
  all_chars cls s = true -> all_chars cls (PyStr.strip s) = true.
Proof.
  destruct (strip_part s) as (a & b & H). intros Hs. rewrite H in Hs.
  rewrite !all_chars_app in Hs.
  apply andb_true_iff in Hs as [_ Hs]. now apply andb_true_iff in Hs as [Hs _].
Qed.

Lemma lstrip_idempotent (s : string) :
  PyStr.lstrip (PyStr.lstrip s) = PyStr.lstrip s.
Proof.
  induction s as [|c s IH]; [reflexivity |]. cbn [PyStr.lstrip].
  destruct (PyStr.isspace c) eqn:E; [exact IH |].
  cbn [PyStr.lstrip]. now rewrite E.
Qed.

(** Cutting white space at the start leaves the end as it is. *)
Lemma rstrip_lstrip (s : string) :
  PyStr.rstrip s = s -> PyStr.rstrip (PyStr.lstrip s) = PyStr.lstrip s.
Proof.
  induction s as [|c s IH]; [reflexivity |]. intros H.
  cbn [PyStr.lstrip]. destruct (PyStr.isspace c) eqn:E; [| exact H].
  apply IH. cbn [PyStr.rstrip] in H. rewrite E in H.
  destruct (PyStr.rstrip s) as [|a r] eqn:Er; [discriminate |].
  now injection H.
Qed.

Lemma strip_idempotent (s : string) : PyStr.strip (PyStr.strip s) = PyStr.strip s.
Proof.
  unfold PyStr.strip.
  rewrite (rstrip_lstrip (PyStr.rstrip s)) by apply rstrip_idempotent.
  apply lstrip_idempotent.
Qed.

(** No blank run starts in a text without a newline. *)
Lemma after_blank_run_none (s : string) :
  free_of PyStr.newline s = true -> after_blank_run s = None.
Proof.
  induction s as [|c s IH]; [reflexivity |].
  unfold free_of. cbn [all_chars]. intros [Hc Hs]%andb_true_iff.
  cbn [after_blank_run]. rewrite (IH Hs).
  apply negb_true_iff in Hc. unfold Re.lit in Hc.
  rewrite Ascii.eqb_sym, Hc. now destruct (PyStr.isspace c).
Qed.

(** White space up to a newline is one blank run, if no newline follows. *)
Lemma after_blank_run_some (blanks rest : string) :
  all_chars PyStr.isspace blanks = true ->
  free_of PyStr.newline rest = true ->
  after_blank_run (blanks +:+ String PyStr.newline rest) = Some rest.
Proof.
  intros Hb Hr. induction blanks as [|c blanks IH].
  - cbn [String.append after_blank_run].
    change (PyStr.isspace PyStr.newline) with true. cbv beta iota.
    now rewrite (after_blank_run_none rest Hr), Ascii.eqb_refl.
  - cbn [all_chars] in Hb. apply andb_true_iff in Hb as [Hc Hb].
    cbn [String.append after_blank_run]. now rewrite Hc, (IH Hb).
Qed.

Lemma collapse_blank_skip (x y : string) :
  collapse_blank_from (x +:+ y) (String.length x) = collapse_blank_from y 0.
Proof.
  induction x as [|ch x IH]; [reflexivity |].
  cbn [String.append String.length collapse_blank_from]. exact IH.
Qed.

Lemma collapse_blank_prefix (a s : string) :
  free_of PyStr.newline a = true ->
  collapse_blank_from (a +:+ s) 0 = a +:+ collapse_blank_from s 0.
Proof.
  induction a as [|c a IH]; [reflexivity |].
  unfold free_of. cbn [all_chars]. intros [Hc Ha]%andb_true_iff.
  apply negb_true_iff in Hc. unfold Re.lit in Hc.
  cbn [String.append collapse_blank_from].
  rewrite Ascii.eqb_sym, Hc. now rewrite (IH Ha).
Qed.

Lemma collapse_blank_free (s : string) :
  free_of PyStr.newline s = true -> collapse_blank_from s 0 = s.
Proof.
  intros H. rewrite <- (append_nil_r s) at 1.
  rewrite collapse_blank_prefix by exact H. apply append_nil_r.
Qed.

Lemma printable_no_newline (s : string) :
  all_chars isprintable s = true -> free_of PyStr.newline s = true.
Proof.
  apply all_chars_weaken. intros c Hc. unfold Re.lit.
  destruct (Ascii.eqb_spec PyStr.newline c) as [<- |]; [discriminate | reflexivity].
Qed.

Lemma rstrip_app_fixed (x b : string) (c : ascii) (r : string) :
  PyStr.rstrip b = b -> b = String c r -> PyStr.rstrip (x +:+ b) = x +:+ b.
Proof.
  intros Hb ->. induction x as [|d x IH]; [exact Hb |].
  cbn [String.append PyStr.rstrip]. rewrite IH.
  destruct x; reflexivity.
Qed.

End ExportFacts.

(** X24. The exported text holds printable characters and newlines only,
    so no tab and no other control character, and it neither starts nor
    ends with white space. *)
Theorem clean_text_for_export_characters (text : string) :
  all_chars export_char (clean_text_for_export text) = true /\
  PyStr.strip (clean_text_for_export text) = clean_text_for_export text.
Proof.
  unfold clean_text_for_export. split.
  - apply all_chars_strip, keep_printable_chars.
  - apply strip_idempotent.
Qed.

(** X25. Two paragraphs with any white space that holds an empty line
    between them are exported with exactly one empty line between them. *)
Theorem clean_text_for_export_blank_lines (a blanks b : string) :
  starts_with_text a = true -> ends_with_text b ->
  all_chars isprintable a = true -> all_chars isprintable b = true ->
  all_chars PyStr.isspace blanks = true ->
  clean_text_for_export (a +:+ nl +:+ blanks +:+ nl +:+ b)
  = a +:+ nl +:+ nl +:+ b.
Proof.
  intros Ha [Hne Hb] Hpa Hpb Hblanks.
  destruct a as [|c a']; [discriminate |]. cbn [starts_with_text] in Ha.
  apply negb_true_iff in Ha.
  destruct b as [|d b'] eqn:Eb; [discriminate |]. rewrite <- Eb in *.
  pose proof (printable_no_newline _ Hpa) as Hna.
  pose proof (printable_no_newline b Hpb) as Hnb.
  unfold clean_text_for_export.
  assert (Hcollapse :
    collapse_blank_from (String c a' +:+ nl +:+ blanks +:+ nl +:+ b) 0
    = String c a' +:+ nl +:+ nl +:+ b).
  { rewrite collapse_blank_prefix by exact Hna.
    change (nl +:+ blanks +:+ nl +:+ b)
      with (String PyStr.newline (blanks +:+ String PyStr.newline b)).
    cbn [collapse_blank_from]. rewrite Ascii.eqb_refl.
    rewrite (after_blank_run_some blanks b Hblanks Hnb).
    replace (blanks +:+ String PyStr.newline b)
      with ((blanks +:+ String PyStr.newline "") +:+ b)
      by now rewrite append_assoc.
    replace (String.length ((blanks +:+ String PyStr.newline "") +:+ b)
             - String.length b)
      with (String.length (blanks +:+ String PyStr.newline ""))
      by (rewrite !length_append; lia).
    now rewrite collapse_blank_skip, (collapse_blank_free b Hnb). }
  rewrite Hcollapse, !keep_printable_app.
  rewrite (keep_printable_fixed _ Hpa), (keep_printable_fixed b Hpb).
  change (keep_printable nl) with nl.
  unfold PyStr.strip.
  replace (String c a' +:+ nl +:+ nl +:+ b) with ((String c a' +:+ nl +:+ nl) +:+ b)
    by now rewrite !append_assoc.
  rewrite (rstrip_app_fixed _ b d b' Hb Eb).
  cbn [String.append PyStr.lstrip]. now rewrite Ha.
Qed.

Lemma clean_text_for_export_blank_lines_witness :
  clean_text_for_export
    ("First paragraph." +:+ nl +:+ (" " +:+ nl +:+ "  ") +:+ nl +:+ "Second one.")
  = "First paragraph." +:+ nl +:+ nl +:+ "Second one.".
Proof.
  apply (clean_text_for_export_blank_lines "First paragraph." _ "Second one.");
    try reflexivity. split; reflexivity.
Defined.

(** ** Session state and configuration *)

Section SessionFacts.

Lemma set_if_missing_keeps (key k : string) (default v : state_value)
  (state : gmap string state_value) :
  state !! k = Some v -> set_if_missing key default state !! k = Some v.
Proof.
  intros H. unfold set_if_missing. destruct (state !! key) eqn:E; [exact H |].
  rewrite lookup_insert_ne; [exact H |]. intros <-. congruence.
Qed.

Lemma set_if_missing_present (key : string) (default : state_value)
  (state : gmap string state_value) :
  is_Some (set_if_missing key default state !! key).
Proof.
  unfold set_if_missing. destruct (state !! key) eqn:E.
  - rewrite E. eauto.
  - rewrite lookup_insert_eq. eauto.
Qed.

Lemma set_if_missing_later (key k : string) (default : state_value)
  (state : gmap string state_value) :
  is_Some (state !! k) -> is_Some (set_if_missing key default state !! k).
Proof. intros [v H]. exists v. now apply set_if_missing_keeps. Qed.

Lemma set_if_missing_noop (key : string) (default : state_value)
  (state : gmap string state_value) :
  is_Some (state !! key) -> set_if_missing key default state = state.
Proof. intros [v H]. unfold set_if_missing. now rewrite H. Qed.

Lemma initialize_has_keys (state : gmap string state_value) (key : string) :
  In key session_keys -> is_Some (initialize_session_state state !! key).
Proof.
  unfold initialize_session_state. cbn [session_keys In].
  intros [<- | [<- | [<- | [<- | [<- | []]]]]];
    repeat first [ apply set_if_missing_present | apply set_if_missing_later ].
Qed.

End SessionFacts.

(** X26. The initialization of the session never replaces a value: every
    key the session holds keeps its value, so a report survives the rerun
    of the script. *)
Theorem initialize_session_state_keeps_values
  (state : gmap string state_value) (key : string) (v : state_value) :
  state !! key = Some v ->
  initialize_session_state state !! key = Some v.
Proof.
  intros H. unfold initialize_session_state.
  now do 5 apply set_if_missing_keeps.
Qed.

Lemma initialize_session_state_keeps_values_witness :
  initialize_session_state
    (<["report_content" := SStr "# Report"]> (<["analysis_complete" := SBool true]> ∅))
  !! "report_content" = Some (SStr "# Report").
Proof.
  apply initialize_session_state_keeps_values. reflexivity.
Defined.

(** X27. After the initialization the five keys are in the session, the
    empty session gets the five defaults, and a second initialization
    changes nothing. *)
Theorem initialize_session_state_complete (state : gmap string state_value) :
  Forall (fun key => is_Some (initialize_session_state state !! key)) session_keys /\
  initialize_session_state (initialize_session_state state)
  = initialize_session_state state /\
  initialize_session_state ∅
  = <["analysis_running" := SBool false]> (<["industry" := SStr ""]>
      (<["company_name" := SStr ""]> (<["report_content" := SNone]>
        (<["analysis_complete" := SBool false]> ∅)))).
Proof.
  split; [| split].
  - apply Forall_forall. intros key Hkey. apply list_elem_of_In in Hkey.
    now apply initialize_has_keys.
  - set (done := initialize_session_state state).
    assert (Hk : forall key, In key session_keys -> is_Some (done !! key))
      by (intros key; apply initialize_has_keys).
    unfold initialize_session_state at 1.
    rewrite (set_if_missing_noop "analysis_complete") by (apply Hk; simpl; tauto).
    rewrite (set_if_missing_noop "report_content") by (apply Hk; simpl; tauto).
    rewrite (set_if_missing_noop "company_name") by (apply Hk; simpl; tauto).
    rewrite (set_if_missing_noop "industry") by (apply Hk; simpl; tauto).
    now rewrite (set_if_missing_noop "analysis_running") by (apply Hk; simpl; tauto).
  - reflexivity.
Qed.

(** X28. The configuration is accepted exactly when both keys are set and
    neither starts with [your_]; the test for [sk-] changes nothing, and the
    message is the one of success exactly when it is accepted. *)
Theorem validate_config_accepts (openai serpapi : string) :
  fst (validate_config openai serpapi)
  = PyStr.nonempty openai && PyStr.nonempty serpapi
    && negb (PyStr.startswith openai "your_")
    && negb (PyStr.startswith serpapi "your_") /\
  (snd (validate_config openai serpapi) = "Configuration validated successfully"
   <-> fst (validate_config openai serpapi) = true).
Proof.
  unfold validate_config.
  destruct (PyStr.nonempty openai), (PyStr.nonempty serpapi),
    (PyStr.startswith openai "your_"), (PyStr.startswith openai "sk-"),
    (PyStr.startswith serpapi "your_"); cbn;
    repeat split; try reflexivity; try discriminate; intros; try discriminate.
Qed.
